(** * NIST SP 800 compliance workflow: a model of [main.py]

    The development embeds the decision logic of the workflow agent
    ([NISTComplianceAgent]) and of the request handler ([run_workflow]):
    retrieval with its fall-back to the demo corpus, content extraction,
    keyword scoring on IEEE binary64 numbers, the relevance filter, and the
    Markdown report.  The network, the clock and the publishing service are
    an explicit environment; exceptions and the state of the outside world
    are threaded through a small monad. *)

From Stdlib Require Import ZArith Uint63 Floats List String Ascii Bool Lia
  DecimalString.
Import ListNotations.

Local Open Scope list_scope.
Local Open Scope string_scope.

(** ** Python built-ins used by the program *)

Module Py.

(** The characters of a Python [str] are modelled by [ascii]; [str.lower]
    maps [A]..[Z] to [a]..[z] and leaves every other character alone. *)
Definition lower_ascii (c : ascii) : ascii :=
  let n := nat_of_ascii c in
  if (65 <=? n)%nat && (n <=? 90)%nat then ascii_of_nat (n + 32) else c.

Fixpoint lower (s : string) : string :=
  match s with
  | EmptyString => EmptyString
  | String c rest => String (lower_ascii c) (lower rest)
  end.

(** [needle in hay] on strings. *)
Fixpoint contains (needle hay : string) : bool :=
  if String.prefix needle hay then true
  else match hay with
       | EmptyString => false
       | String _ rest => contains needle rest
       end.

(** [s[:n]] for a non-negative bound. *)
Definition str_slice_to (s : string) (n : nat) : string := substring 0 n s.

(** [l[:n]] for any integer bound: a negative bound counts from the end. *)
Definition slice_to {A : Type} (l : list A) (n : Z) : list A :=
  if (n <? 0)%Z
  then firstn (Z.to_nat (Z.max 0 (Z.of_nat (List.length l) + n))) l
  else firstn (Z.to_nat n) l.

Definition len {A : Type} (l : list A) : Z := Z.of_nat (List.length l).

(** Truth value of an optional string: [None] and [''] are false. *)
Definition truthy (o : option string) : bool :=
  match o with
  | Some (String _ _) => true
  | _ => false
  end.

Definition nonempty (s : string) : bool :=
  match s with
  | EmptyString => false
  | String _ _ => true
  end.

(** [d.get(key, default)] for a key that may be absent. *)
Definition get {A : Type} (o : option A) (default : A) : A :=
  match o with
  | Some v => v
  | None => default
  end.

(** [str(n)] for a non-negative integer. *)
Definition str_of_nat (n : nat) : string :=
  NilZero.string_of_uint (Nat.to_uint n).

Definition str_of_N (n : N) : string :=
  NilZero.string_of_uint (N.to_uint n).

Fixpoint zeros (n : nat) : string :=
  match n with
  | O => EmptyString
  | S k => String "0" (zeros k)
  end.

(** [%0wd]: decimal digits, padded with zeros on the left to width [w]. *)
Definition zpad (w : nat) (s : string) : string :=
  zeros (w - String.length s) ++ s.

(** [max(a, b)] and [min(a, b)] on floats: the first argument is kept
    unless the second is strictly better. *)
Definition max (a b : float) : float :=
  if PrimFloat.ltb a b then b else a.

Definition min (a b : float) : float :=
  if PrimFloat.ltb b a then b else a.

(** [m / n] on two small non-negative integers: the correctly rounded
    quotient, which is the binary64 division of the two integers. *)
Definition float_of_nat (n : nat) : float :=
  PrimFloat.of_uint63 (Uint63.of_Z (Z.of_nat n)).

Definition truediv (m n : nat) : float :=
  PrimFloat.div (float_of_nat m) (float_of_nat n).

(** Rounding of the fraction [num / den] ([den > 0]) to the nearest
    integer, ties to even. *)
Definition round_half_even (num den : Z) : Z :=
  let q := (num / den)%Z in
  let r := (num mod den)%Z in
  match (2 * r ?= den)%Z with
  | Lt => q
  | Gt => (q + 1)%Z
  | Eq => if Z.even q then q else (q + 1)%Z
  end.

(** The hundredths of [m * 2^e], rounded. *)
Definition hundredths (m : positive) (e : Z) : Z :=
  if (0 <=? e)%Z then (Zpos m * 100 * 2 ^ e)%Z
  else round_half_even (Zpos m * 100) (2 ^ (- e)).

Definition fixed2 (negative : bool) (h : Z) : string :=
  (if negative then "-" else "")
  ++ str_of_N (Z.to_N (h / 100)) ++ "."
  ++ zpad 2 (str_of_N (Z.to_N (h mod 100))).

(** [format(x, '.2f')] on a float.  *)
Definition format_2f (x : float) : string :=
  match Prim2SF x with
  | S754_nan => "nan"
  | S754_infinity s => if s then "-inf" else "inf"
  | S754_zero s => fixed2 s 0
  | S754_finite s m e => fixed2 s (hundredths m e)
  end.

End Py.

(** ** Documents *)

(** An article is a dictionary with a fixed set of keys, each of which may
    be absent: the scraped and the searched articles carry no ['content'],
    and ['relevance_score'] is only set by the relevance filter. *)
Record Article : Type := mkArticle {
  title : option string;
  url : option string;
  date : option string;
  summary : option string;
  source : option string;
  content : option string;
  relevance_score : option float
}.

(** [article['content'] = c] *)
Definition set_content (a : Article) (c : string) : Article :=
  {| title := title a; url := url a; date := date a; summary := summary a;
     source := source a; content := Some c;
     relevance_score := relevance_score a |}.

(** [article['relevance_score'] = x] *)
Definition set_relevance_score (a : Article) (x : float) : Article :=
  {| title := title a; url := url a; date := date a; summary := summary a;
     source := source a; content := content a;
     relevance_score := Some x |}.

(** ** The keyword scorer *)

Definition keywords : list string :=
  [ "software"; "development"; "sdlc"; "ci/cd"; "devops"; "pipeline";
    "container"; "cloud"; "security"; "secure"; "sast"; "dast"; "sbom";
    "supply chain"; "cui"; "pii"; "authentication"; "access"; "control";
    "nist"; "framework"; "cybersecurity"; "compliance"; "controls";
    "sp 800"; "800-53"; "800-171"; "800-218"; "ssdf"; "guidance" ].

(** The text that is scanned: title, summary and the first 1000 characters
    of the content, in lower case. *)
Definition scored_text (article : Article) : string :=
  Py.lower (Py.get (title article) "" ++ " " ++ Py.get (summary article) ""
            ++ " " ++ Py.str_slice_to (Py.get (content article) "") 1000).

(** [sum(1 for keyword in keywords if keyword in text)] *)
Definition matches_in (text : string) : nat :=
  List.length (filter (fun keyword => Py.contains keyword text) keywords).

Definition matches (article : Article) : nat :=
  matches_in (scored_text article).

(** [score = matches / len(keywords)], before the demo floor and the
    scaling. *)
Definition raw_score (article : Article) : float :=
  Py.truediv (matches article) (List.length keywords).

Definition is_demo (article : Article) : bool :=
  Py.contains "demo" (Py.lower (Py.get (source article) "")).

Definition demo_floor : float := 0x1.999999999999ap-1%float.    (* 0.8 *)
Definition relevance_threshold : float := 0x1.6666666666666p-1%float. (* 0.7 *)

(** The score as a function of the number of matches and the demo mark. *)
Definition score_of (m : nat) (demo : bool) : float :=
  let score := Py.truediv m (List.length keywords) in
  let score := if demo then Py.max score demo_floor else score in
  Py.min (PrimFloat.mul score 3%float) 1%float.

Definition _keyword_based_relevance (article : Article) : float :=
  score_of (matches article) (is_demo article).

(** The AI assessment is bypassed: the keyword score is returned. *)
Definition _assess_it_relevance (article : Article) : float :=
  _keyword_based_relevance article.

(** ** Exceptions, the outside world, and the monad of the workflow *)

Inductive exn : Type :=
| HTTPException (status_code : Z) (detail : string)
| ValueError (message : string)
| RuntimeError (message : string).

(** What a run leaves behind: how often the clock was read, and the
    addresses the content extractor asked the network for, oldest first. *)
Record World : Type := mkWorld {
  ticks : nat;
  fetched : list string
}.

(** A computation reads and changes the world, and returns a value or
    raises; what it did before raising stays done. *)
Definition M (A : Type) : Type := World -> (exn + A) * World.

Definition ret {A : Type} (x : A) : M A := fun w => (inr x, w).

Definition bind {A B : Type} (c : M A) (k : A -> M B) : M B :=
  fun w =>
    match c w with
    | (inr x, w') => k x w'
    | (inl e, w') => (inl e, w')
    end.

Definition raise {A : Type} (e : exn) : M A := fun w => (inl e, w).

(** [try: c  except Exception as e: handler(e)] *)
Definition try_except {A : Type} (c : M A) (handler : exn -> M A) : M A :=
  fun w =>
    match c w with
    | (inr x, w') => (inr x, w')
    | (inl e, w') => handler e w'
    end.

Definition lift {A : Type} (r : exn + A) : M A := fun w => (r, w).

Declare Scope workflow_scope.
Delimit Scope workflow_scope with workflow.
Notation "x <- c ;; k" := (bind c (fun x => k))
  (at level 61, c at next level, right associativity) : workflow_scope.
Local Open Scope workflow_scope.

(** ** Dates *)

Record datetime : Type := mkDatetime {
  year : nat; month : nat; day : nat;
  hour : nat; minute : nat; second : nat; microsecond : nat
}.

Definition two (n : nat) : string := Py.zpad 2 (Py.str_of_nat n).

(** [strftime('%Y-%m-%d')]; the year is taken to have four digits. *)
Definition strftime_date (t : datetime) : string :=
  Py.zpad 4 (Py.str_of_nat (year t)) ++ "-" ++ two (month t) ++ "-"
  ++ two (day t).

Definition clock_time (t : datetime) : string :=
  two (hour t) ++ ":" ++ two (minute t) ++ ":" ++ two (second t).

(** [strftime('%Y-%m-%d %H:%M:%S')] *)
Definition strftime (t : datetime) : string :=
  strftime_date t ++ " " ++ clock_time t.

(** [isoformat()]: the microseconds are printed unless they are zero. *)
Definition isoformat (t : datetime) : string :=
  strftime_date t ++ "T" ++ clock_time t
  ++ match microsecond t with
     | O => ""
     | S _ => "." ++ Py.zpad 6 (Py.str_of_nat (microsecond t))
     end.

(** ** The environment of an agent *)

(** An item of a custom-search answer. *)
Record SearchItem : Type := mkSearchItem {
  item_title : option string;
  item_link : option string;
  item_displayLink : option string;
  item_snippet : option string
}.

Record PublishResult : Type := mkPublishResult {
  result_summary_url : string;
  result_pr_url : string;
  result_branch : string;
  result_file_path : string
}.

(** The configuration, and the collaborators the agent talks to.  The
    scraper of the CSRC site is taken whole, as the list it returns for a
    term and a limit (it catches its own failures).  The custom-search call
    answers a query with its items, or fails.  A page fetch gives the
    cleaned text of the main region of a page, or nothing when the request
    or the parse fails.  Publishing is whatever the hosting service does. *)
Record Env : Type := mkEnv {
  GOOGLE_API_KEY : option string;
  SEARCH_ENGINE_ID : option string;
  github_client : bool;
  clock : nat -> datetime;
  _search_nist_csrc : string -> Z -> list Article;
  custom_search : string -> Z -> option (list SearchItem);
  page_text : string -> option string;
  github_api : string -> list Article -> M PublishResult;
  HTTPException_str : Z -> string -> string
}.

Definition NIST_SEARCH_TERMS : list string :=
  [ "NIST SP 800-53"; "NIST SP 800-171"; "NIST SP 800-218";
    "cybersecurity framework"; "secure software development";
    "supply chain security"; "SSDF" ].

(** ** The demo corpus *)

Definition demo_articles : list Article :=
  [ {| title := Some "NIST SP 800-218A: Secure Software Development Framework (SSDF) v1.1";
       url := Some "https://csrc.nist.gov/publications/detail/sp/800-218a/final";
       date := Some "2024-12-01";
       summary := Some "This document provides guidance on implementing secure software development practices throughout the software development life cycle (SDLC), including CI/CD pipeline security, supply chain security, and SBOM requirements.";
       source := Some "NIST CSRC (Demo)";
       content := Some "This publication provides updated guidance for implementing secure software development practices, with enhanced focus on CI/CD pipeline security, supply chain security, SBOM requirements, container security, and DevOps integration.";
       relevance_score := None |};
    {| title := Some "NIST Cybersecurity Framework 2.0: Updated Implementation Guidance";
       url := Some "https://csrc.nist.gov/cyberframework/framework";
       date := Some "2024-11-15";
       summary := Some "Major update to the NIST Cybersecurity Framework with new guidance for cloud environments, IoT security, and supply chain risk management.";
       source := Some "NIST CSRC (Demo)";
       content := Some "The updated framework includes new core functions for cybersecurity governance, cloud security guidance, supply chain subcategories, and expanded coverage for operational technology and IoT.";
       relevance_score := None |};
    {| title := Some "NIST SP 800-53 Rev 5: Security Controls for Federal Information Systems";
       url := Some "https://csrc.nist.gov/publications/detail/sp/800-53/rev-5/final";
       date := Some "2024-10-30";
       summary := Some "Updated security controls with new guidance for DevOps, cloud computing, and mobile device security.";
       source := Some "NIST CSRC (Demo)";
       content := Some "Security controls for software development environments including continuous monitoring requirements, automated security testing integration, configuration management controls, and access control for development environments.";
       relevance_score := None |} ].

Definition _get_demo_nist_data (limit : Z) : list Article :=
  Py.slice_to demo_articles limit.

(** ** The report text *)

Definition nl : string := String "010"%char EmptyString.
Definition dq : string := String "034"%char EmptyString.

(** A block of text, one line per element. *)
Definition lines (l : list string) : string :=
  String.concat "" (map (fun s => (s ++ nl)%string) l).

Definition report_header (iso stamp : string) (n : nat) : string :=
  lines [ "---";
          "title: " ++ dq ++ "NIST SP 800 Compliance Update Summary" ++ dq;
          "date: " ++ dq ++ iso ++ dq;
          "articles_processed: " ++ Py.str_of_nat n;
          "generated_by: " ++ dq ++ "NIST Compliance Workflow Agent" ++ dq;
          "---";
          "";
          "# NIST SP 800 Compliance Update Summary";
          "";
          "**Generated:** " ++ stamp;
          "**Articles Processed:** " ++ Py.str_of_nat n;
          "";
          "## Latest Updates";
          "" ].

(** The finding of the [i]-th article, given its score. *)
Definition finding_text (i : nat) (article : Article) (score : float)
  : string :=
  lines [ "";
          "### " ++ Py.str_of_nat i ++ ". "
            ++ Py.get (title article) "Untitled";
          "";
          "- **URL:** " ++ Py.get (url article) "N/A";
          "- **Date:** " ++ Py.get (date article) "N/A";
          "- **Source:** " ++ Py.get (source article) "N/A";
          "- **Relevance Score:** " ++ Py.format_2f score;
          "- **Summary:** " ++ Py.get (summary article) "N/A";
          "" ].

(** The format [.2f] applies to numbers only: on the default ['N/A'] of an
    article without a score the formatting raises. *)
Definition finding_block (i : nat) (article : Article) : exn + string :=
  match relevance_score article with
  | Some score => inr (finding_text i article score)
  | None =>
      inl (ValueError "Unknown format code 'f' for object of type 'str'")
  end.

Definition recommendations : string :=
  lines [ "";
          "## Key Recommendations for IT Teams";
          "";
          "Based on the analyzed NIST updates, consider the following actions:";
          "";
          "- [ ] **Review Security Controls**: Assess current implementation of NIST SP 800-53 controls";
          "- [ ] **Update SDLC Processes**: Integrate new secure development practices from SP 800-218";
          "- [ ] **Enhance CI/CD Security**: Implement automated security testing in development pipelines";
          "- [ ] **Supply Chain Assessment**: Review third-party components and implement SBOM practices";
          "- [ ] **Access Control Review**: Update authentication and authorization mechanisms";
          "- [ ] **Incident Response**: Revise incident response procedures based on new guidance";
          "";
          "## Next Steps";
          "";
          "1. Review each publication in detail";
          "2. Conduct gap analysis against current practices";
          "3. Develop implementation roadmap";
          "4. Train development teams on new requirements";
          "5. Update security policies and procedures";
          "";
          "## Source Citations";
          "" ].

Definition citation_line (i : nat) (article : Article) : string :=
  Py.str_of_nat i ++ ". [" ++ Py.get (title article) "Untitled" ++ "]("
  ++ Py.get (url article) "#" ++ ")" ++ nl.

Definition report_footer (stamp : string) : string :=
  lines [ "";
          "";
          "---";
          "*This summary was generated automatically by the NIST Compliance Workflow Agent on "
            ++ stamp ++ "*" ].

(** [for i, article in enumerate(articles, i): summary += finding], which
    stops at the first article whose finding cannot be formatted. *)
Fixpoint findings_loop (articles : list Article) (i : nat) (summary : string)
  : exn + string :=
  match articles with
  | [] => inr summary
  | article :: rest =>
      match finding_block i article with
      | inr block => findings_loop rest (S i) (summary ++ block)
      | inl e => inl e
      end
  end.

(** [for i, article in enumerate(articles, i): summary += citation] *)
Fixpoint citations_loop (articles : list Article) (i : nat) (summary : string)
  : string :=
  match articles with
  | [] => summary
  | article :: rest =>
      citations_loop rest (S i) (summary ++ citation_line i article)
  end.

(** ** The relevance filter *)

(** The loop of the filter, for any way of assessing an article. *)
Fixpoint filter_loop (assess : Article -> float)
  (articles filtered_articles : list Article) : list Article :=
  match articles with
  | [] => filtered_articles
  | article :: rest =>
      let score := assess article in
      if PrimFloat.ltb relevance_threshold score
      then filter_loop assess rest
             (filtered_articles ++ [set_relevance_score article score])
      else filter_loop assess rest filtered_articles
  end.

Definition filter_it_relevant_content (articles : list Article)
  : list Article :=
  filter_loop _assess_it_relevance articles [].

(** ** Requests and responses *)

Record WorkflowRequest : Type := mkRequest {
  topic : option string;
  max_articles : Z
}.

Record WorkflowResponse : Type := mkResponse {
  status : string;
  summary_url : string;
  pr_url : string;
  articles_processed : nat
}.

(** ** The agent *)

Section Agent.

Variable env : Env.

(** [datetime.now()] *)
Definition now : M datetime :=
  fun w => (inr (clock env (ticks w)),
            {| ticks := S (ticks w); fetched := fetched w |}).

(** [self.session.get(url)] of the content extractor, followed by the
    parse of the page. *)
Definition session_get (address : string) : M (option string) :=
  fun w => (inr (page_text env address),
            {| ticks := ticks w;
               fetched := (fetched w ++ [address])%list |}).

(** [str(e)] *)
Definition str_exn (e : exn) : string :=
  match e with
  | HTTPException code detail => HTTPException_str env code detail
  | ValueError message => message
  | RuntimeError message => message
  end.

(** *** Retrieval *)

Definition google_configured : bool :=
  Py.truthy (GOOGLE_API_KEY env) && Py.truthy (SEARCH_ENGINE_ID env).

Definition article_of_item (item : SearchItem) : Article :=
  {| title := Some (Py.get (item_title item) "");
     url := Some (Py.get (item_link item) "");
     date := Some (Py.get (item_displayLink item) "");
     summary := Some (Py.get (item_snippet item) "");
     source := Some "Google Search";
     content := None;
     relevance_score := None |}.

Definition _google_search_nist (query : option string) (limit : Z)
  : list Article :=
  if negb (Py.truthy (GOOGLE_API_KEY env))
     || negb (Py.truthy (SEARCH_ENGINE_ID env))
  then []
  else
    let search_query :=
      "NIST SP 800 "
      ++ (if Py.truthy query then Py.get query ""
          else "cybersecurity framework")
      ++ " site:nist.gov" in
    match custom_search env search_query (Z.min limit 10) with
    | Some items => map article_of_item (Py.slice_to items limit)
    | None => []
    end.

(** The loop over the search terms: it stops as soon as enough articles
    were found. *)
Fixpoint csrc_loop (terms : list string) (max_results : Z)
  (articles : list Article) : list Article :=
  match terms with
  | [] => articles
  | term :: rest =>
      let articles :=
        (articles ++ _search_nist_csrc env term (max_results / 3))%list in
      if (max_results <=? Py.len articles)%Z then articles
      else csrc_loop rest max_results articles
  end.

Definition search_nist_updates (topic : option string) (max_results : Z)
  : list Article :=
  let search_terms :=
    (NIST_SEARCH_TERMS
     ++ (if Py.truthy topic then [Py.get topic ""] else []))%list in
  let articles := csrc_loop (Py.slice_to search_terms 3) max_results [] in
  let articles :=
    if (Py.len articles <? max_results)%Z && google_configured
    then (articles
          ++ _google_search_nist topic (max_results - Py.len articles))%list
    else articles in
  let articles :=
    if (Py.len articles <? max_results)%Z
    then (articles
          ++ _get_demo_nist_data (max_results - Py.len articles))%list
    else articles in
  let articles :=
    if (Py.len articles =? 0)%Z then _get_demo_nist_data max_results
    else articles in
  Py.slice_to articles max_results.

(** *** Extraction *)

Definition _extract_single_article (article : Article) : M string :=
  let address := Py.get (url article) "" in
  if negb (Py.nonempty address) then ret ""
  else
    page <- session_get address ;;
    match page with
    | Some text => ret (Py.str_slice_to text (Z.to_nat 50000))
    | None => ret ""
    end.

(** ['content' in article and article['content']] *)
Definition has_content (article : Article) : bool :=
  Py.truthy (content article).

Fixpoint extract_loop (articles extracted_articles : list Article)
  : M (list Article) :=
  match articles with
  | [] => ret extracted_articles
  | article :: rest =>
      if has_content article
      then extract_loop rest (extracted_articles ++ [article])
      else
        text <- _extract_single_article article ;;
        if Py.nonempty text
        then extract_loop rest
               (extracted_articles ++ [set_content article text])
        else extract_loop rest extracted_articles
  end.

Definition extract_content (articles : list Article) : M (list Article) :=
  extract_loop articles [].

(** *** The report *)

Definition _generate_fallback_summary (articles : list Article)
  : M string :=
  t1 <- now ;;
  t2 <- now ;;
  let summary :=
    report_header (isoformat t1) (strftime t2) (List.length articles) in
  summary <- lift (findings_loop articles 1 summary) ;;
  let summary := summary ++ recommendations in
  let summary := citations_loop articles 1 summary in
  t3 <- now ;;
  ret (summary ++ report_footer (strftime t3)).

Definition generate_summary (articles : list Article) : M string :=
  _generate_fallback_summary articles.

(** *** Publishing *)

Definition publish_to_github (summary : string) (articles : list Article)
  : M PublishResult :=
  if negb (github_client env)
  then raise (HTTPException 500 "GitHub client not configured")
  else
    try_except (github_api env summary articles)
      (fun e =>
         raise (HTTPException 500
                  ("Failed to publish to GitHub: " ++ str_exn e))).

(** *** The request handler *)

Definition workflow_steps (request : WorkflowRequest)
  : M WorkflowResponse :=
  let articles :=
    search_nist_updates (topic request) (max_articles request) in
  match articles with
  | [] => raise (HTTPException 404 "No NIST updates found")
  | _ :: _ =>
      articles_with_content <- extract_content articles ;;
      let relevant_articles :=
        filter_it_relevant_content articles_with_content in
      match relevant_articles with
      | [] =>
          raise (HTTPException 404
                   "No relevant articles found for IT organizations")
      | _ :: _ =>
          summary <- generate_summary relevant_articles ;;
          if github_client env
          then
            try_except
              (github_result <- publish_to_github summary
                                  relevant_articles ;;
               ret {| status := "success";
                      summary_url := result_summary_url github_result;
                      pr_url := result_pr_url github_result;
                      articles_processed :=
                        List.length relevant_articles |})
              (fun _ =>
                 ret {| status := "success";
                        summary_url := "GitHub publishing failed - summary generated successfully";
                        pr_url := "GitHub publishing failed - summary generated successfully";
                        articles_processed :=
                          List.length relevant_articles |})
          else
            ret {| status := "success";
                   summary_url := "GitHub not configured - summary generated successfully";
                   pr_url := "GitHub not configured - no PR created";
                   articles_processed := List.length relevant_articles |}
      end
  end.

(** The steps run inside [try: ... except Exception as e:], whose handler
    answers every exception with status 500. *)
Definition run_workflow (request : WorkflowRequest) : M WorkflowResponse :=
  try_except (workflow_steps request)
    (fun e => raise (HTTPException 500 (str_exn e))).

End Agent.

(** ** Order on scores *)

Definition float_le (a b : float) : Prop := PrimFloat.leb a b = true.
Definition float_lt (a b : float) : Prop := PrimFloat.ltb a b = true.

(** An article is scored once the filter has set its relevance score. *)
Definition scored (article : Article) : Prop :=
  relevance_score article <> None.

(** ** Sample environments and articles *)

(** A clock whose readings are a microsecond apart. *)
Definition sample_clock (n : nat) : datetime :=
  {| year := 2024; month := 12; day := 1;
     hour := 9; minute := 30; second := 0; microsecond := S n |}.

(** The agent on a machine without credentials and without network: the
    scraper finds nothing, no search is configured, no page can be fetched.
    [str] of an HTTP exception is the one of recent Starlette releases. *)
Definition offline_env : Env :=
  {| GOOGLE_API_KEY := None;
     SEARCH_ENGINE_ID := None;
     github_client := false;
     clock := sample_clock;
     _search_nist_csrc := fun _ _ => [];
     custom_search := fun _ _ => None;
     page_text := fun _ => None;
     github_api := fun _ _ => raise (RuntimeError "connection refused");
     HTTPException_str :=
       fun code detail => Py.str_of_N (Z.to_N code) ++ ": " ++ detail |}.

Definition bulletin : Article :=
  {| title := Some "Cybersecurity Framework bulletin";
     url := Some "https://csrc.nist.gov/publications/bulletin";
     date := Some "2024-12-01";
     summary := Some "NIST publication related to NIST SP 800-53";
     source := Some "NIST CSRC";
     content := None;
     relevance_score := None |}.

(** The scraper finds one publication, whose page cannot be fetched. *)
Definition scraping_env : Env :=
  {| GOOGLE_API_KEY := None;
     SEARCH_ENGINE_ID := None;
     github_client := false;
     clock := sample_clock;
     _search_nist_csrc := fun _ limit => Py.slice_to [bulletin] limit;
     custom_search := fun _ _ => None;
     page_text := fun _ => None;
     github_api := fun _ _ => raise (RuntimeError "connection refused");
     HTTPException_str :=
       fun code detail => Py.str_of_N (Z.to_N code) ++ ": " ++ detail |}.

Definition world0 : World := {| ticks := 0; fetched := [] |}.

(** ['x' * n] *)
Definition filler (n : nat) : string :=
  string_of_list_ascii (repeat "x"%char n).

(** An article whose last keyword ends exactly at the 1000th character of
    its content. *)
Definition long_article : Article :=
  {| title := Some "NIST bulletin";
     url := Some "https://csrc.nist.gov/publications/bulletin";
     date := Some "2024-12-01";
     summary := Some "";
     source := Some "NIST CSRC";
     content := Some (filler 992 ++ "software");
     relevance_score := None |}.

Definition with_score (name : string) (x : float) : Article :=
  {| title := Some name; url := None; date := None; summary := None;
     source := None; content := Some name; relevance_score := Some x |}.

(** Three articles that carry the scores 0.9, 0.71 and 0.2. *)
Definition doc_090 : Article := with_score "first" 0x1.ccccccccccccdp-1.
Definition doc_071 : Article := with_score "third" 0x1.6b851eb851eb8p-1.
Definition doc_020 : Article := with_score "fourth" 0x1.999999999999ap-3.

(** An article that has a title and a content, and no score yet. *)
Definition unscored (name : string) : Article :=
  {| title := Some name; url := None; date := None; summary := None;
     source := None; content := Some name; relevance_score := None |}.

(** A scorer that gives the four articles "first", "second", "third" and
    "fourth" the scores 0.9, 0.7, 0.71 and 0.2, as a test double of the
    assessment does. *)
Definition score_by_title (article : Article) : float :=
  let name := Py.get (title article) "" in
  if String.eqb name "first" then 0x1.ccccccccccccdp-1%float
  else if String.eqb name "second" then 0x1.6666666666666p-1%float
  else if String.eqb name "third" then 0x1.6b851eb851eb8p-1%float
  else if String.eqb name "fourth" then 0x1.999999999999ap-3%float
  else 0%float.

(** The annotation the filter leaves on an article it keeps. *)
Definition annotate (assess : Article -> float) (article : Article)
  : Article :=
  set_relevance_score article (assess article).

Definition above_threshold (assess : Article -> float) (article : Article)
  : bool :=
  PrimFloat.ltb relevance_threshold (assess article).

(** The report read as a text in parts: the findings and the citations of
    a list of articles, numbered from [i], one after the other. *)
Fixpoint findings (articles : list Article) (i : nat) : string :=
  match articles with
  | [] => ""
  | article :: rest =>
      finding_text i article (Py.get (relevance_score article) 0%float)
      ++ findings rest (S i)
  end.

Fixpoint citations (articles : list Article) (i : nat) : string :=
  match articles with
  | [] => ""
  | article :: rest => citation_line i article ++ citations rest (S i)
  end.

Definition format_error : exn :=
  ValueError "Unknown format code 'f' for object of type 'str'".

(** The text of a report, if there is one. *)
Definition report_text (r : exn + string) : string :=
  match r with
  | inr text => text
  | inl _ => ""
  end.

(** The demo corpus after the relevance filter. *)
Definition scored_demo_articles : list Article :=
  filter_it_relevant_content demo_articles.

(** ** The body of the scraper *)

(** What the scraper looks at in an element of the result page: an anchor
    has its text and may have an address; any other element may have a
    heading, and may have a link with an address. *)
Inductive Element : Type :=
| Anchor (text : string) (href : option string)
| Container (heading : option string) (link : option string).

Definition NIST_BASE_URL : string := "https://csrc.nist.gov".

Definition title_markers : list string :=
  [ "sp 800"; "special publication"; "cybersecurity"; "framework" ].

(** The title and the link of an element; an element without a heading is
    skipped. *)
Definition title_and_link (result : Element) : option (string * string) :=
  match result with
  | Anchor text href => Some (text, Py.get href "")
  | Container (Some text) link => Some (text, Py.get link "")
  | Container None _ => None
  end.

(** A relative link is put under the base address. *)
Definition clean_link (link : string) : string :=
  if Py.nonempty link && negb (String.prefix "http" link)
  then NIST_BASE_URL ++ link
  else link.

(** [title and len(title) > 10 and any(keyword in title.lower() ...)] *)
Definition relevant_title (text : string) : bool :=
  Py.nonempty text
  && (10 <? String.length text)%nat
  && existsb (fun keyword => Py.contains keyword (Py.lower text))
       title_markers.

Definition scraped_article (text link term : string) (t : datetime)
  : Article :=
  {| title := Some text;
     url := Some link;
     date := Some (strftime_date t);
     summary := Some ("NIST publication related to " ++ term);
     source := Some "NIST CSRC";
     content := None;
     relevance_score := None |}.

Section Scraper.

Variable env : Env.

(** The loop of [_search_nist_csrc] over the elements found in the page of
    a term. *)
Fixpoint scrape_loop (term : string) (limit : Z) (search_results : list Element)
  (count : Z) (articles : list Article) : M (list Article) :=
  match search_results with
  | [] => ret articles
  | result :: rest =>
      if (limit <=? count)%Z then ret articles
      else
        match title_and_link result with
        | None => scrape_loop term limit rest count articles
        | Some (text, link) =>
            let link := clean_link link in
            if relevant_title text
            then
              t <- now env ;;
              scrape_loop term limit rest (count + 1)
                (articles ++ [scraped_article text link term t])
            else scrape_loop term limit rest count articles
        end
  end.

Definition scrape (term : string) (limit : Z) (search_results : list Element)
  : M (list Article) :=
  scrape_loop term limit search_results 0 [].

(** ** Retrieval, step by step *)

(** What the scraper and the search supplied, before the demo corpus is
    looked at. *)
Definition real_source_articles (topic : option string) (max_results : Z)
  : list Article :=
  let search_terms :=
    (NIST_SEARCH_TERMS
     ++ (if Py.truthy topic then [Py.get topic ""] else []))%list in
  let articles := csrc_loop env (Py.slice_to search_terms 3) max_results [] in
  if (Py.len articles <? max_results)%Z && google_configured env
  then (articles
        ++ _google_search_nist env topic (max_results - Py.len articles))%list
  else articles.

(** ** Extraction, article by article *)

(** The text [_extract_single_article] returns for an article. *)
Definition fetched_text (article : Article) : string :=
  let address := Py.get (url article) "" in
  if Py.nonempty address
  then match page_text env address with
       | Some text => Py.str_slice_to text (Z.to_nat 50000)
       | None => ""
       end
  else "".

(** What the extractor returns for an article, and what it asks the network
    for. *)
Definition extracted (article : Article) : list Article :=
  if has_content article then [article]
  else if Py.nonempty (fetched_text article)
       then [set_content article (fetched_text article)]
       else [].

Definition requested (article : Article) : list string :=
  if has_content article then []
  else if Py.nonempty (Py.get (url article) "")
       then [Py.get (url article) ""]
       else [].

End Scraper.

(** A page with two publications, a short title, an element without
    heading, and a title that is off the subject. *)
Definition sample_page : list Element :=
  [ Anchor "NIST SP 800-53 Rev. 5" (Some "/publications/detail/sp/800-53/rev-5/final");
    Anchor "SP 800" (Some "/publications/sp800");
    Container None (Some "/publications/none");
    Container (Some "Cybersecurity Framework 2.0")
      (Some "https://www.nist.gov/cyberframework");
    Anchor "Privacy engineering program" None ].

(** A service that refuses every publication. *)
Definition failing_github_env : Env :=
  {| GOOGLE_API_KEY := None;
     SEARCH_ENGINE_ID := None;
     github_client := true;
     clock := sample_clock;
     _search_nist_csrc := fun _ _ => [];
     custom_search := fun _ _ => None;
     page_text := fun _ => None;
     github_api := fun _ _ => raise (RuntimeError "connection refused");
     HTTPException_str :=
       fun code detail => Py.str_of_N (Z.to_N code) ++ ": " ++ detail |}.

(** The search is configured and answers with one item. *)
Definition searching_env : Env :=
  {| GOOGLE_API_KEY := Some "key";
     SEARCH_ENGINE_ID := Some "engine";
     github_client := false;
     clock := sample_clock;
     _search_nist_csrc := fun _ _ => [];
     custom_search :=
       fun _ _ =>
         Some [ {| item_title := Some "SP 800-171 Rev. 3";
                   item_link := Some "https://csrc.nist.gov/pubs/sp/800/171/r3/final";
                   item_displayLink := Some "csrc.nist.gov";
                   item_snippet := None |} ];
     page_text := fun _ => Some "Protecting controlled unclassified information";
     github_api := fun _ _ => raise (RuntimeError "connection refused");
     HTTPException_str :=
       fun code detail => Py.str_of_N (Z.to_N code) ++ ": " ++ detail |}.

(** What holds of an article the scraper made for a term. *)
Definition scraped_for (term : string) (article : Article) : Prop :=
  source article = Some "NIST CSRC"
  /\ content article = None
  /\ relevance_score article = None
  /\ summary article = Some ("NIST publication related to " ++ term)
  /\ (exists text,
         title article = Some text
         /\ (10 < String.length text)%nat
         /\ exists marker,
              In marker title_markers
              /\ Py.contains marker (Py.lower text) = true)
  /\ (exists link,
         url article = Some link
         /\ (link = "" \/ String.prefix "http" link = true)).

(** ** Texts in ASCII *)

(** [s.isascii()]: every character is below U+0080.  On such a text
    [str.lower] changes the letters [A]..[Z] only. *)
Fixpoint isascii (s : string) : bool :=
  match s with
  | EmptyString => true
  | String c rest => (nat_of_ascii c <? 128)%nat && isascii rest
  end.

(** The four texts the scorer reads are ASCII. *)
Definition ascii_article (article : Article) : Prop :=
  isascii (Py.get (title article) "") = true
  /\ isascii (Py.get (summary article) "") = true
  /\ isascii (Py.get (content article) "") = true
  /\ isascii (Py.get (source article) "") = true.

(** ** Extraction on shared dictionaries *)

(** The articles of a list are dictionaries, and the extractor writes the
    fetched text into the dictionary it was given.  Here the dictionaries
    live in a heap and a list holds references to them, so that the same
    dictionary may occur twice in a list. *)
Definition Heap : Type := list Article.

Definition deref (heap : Heap) (r : nat) : option Article := nth_error heap r.

(** The heap after an assignment to the dictionary at [r]. *)
Fixpoint assign (heap : Heap) (r : nat) (article : Article) : Heap :=
  match heap, r with
  | [], _ => []
  | _ :: rest, O => article :: rest
  | a :: rest, S r' => a :: assign rest r' article
  end.

(** What a dictionary holds after the extractor has seen it, whether the
    extractor keeps it, and what the extractor asks the network for it. *)
Definition after_extraction (env : Env) (article : Article) : Article :=
  if has_content article then article
  else if Py.nonempty (fetched_text env article)
       then set_content article (fetched_text env article)
       else article.

Definition kept_at (env : Env) (heap : Heap) (r : nat) : bool :=
  match deref heap r with
  | Some article =>
      has_content article || Py.nonempty (fetched_text env article)
  | None => false
  end.

Definition requested_at (heap : Heap) (r : nat) : list string :=
  match deref heap r with
  | Some article => requested article
  | None => []
  end.

(** The loop of [extract_content] on references: [article['content'] =
    content] changes the dictionary in the heap, for every place that
    refers to it. *)
Fixpoint extract_refs_loop (env : Env) (refs extracted_refs : list nat)
  (heap : Heap) : M (list nat * Heap) :=
  match refs with
  | [] => ret (extracted_refs, heap)
  | r :: rest =>
      match deref heap r with
      | None => extract_refs_loop env rest extracted_refs heap
      | Some article =>
          if has_content article
          then extract_refs_loop env rest (extracted_refs ++ [r]) heap
          else
            text <- _extract_single_article env article ;;
            if Py.nonempty text
            then extract_refs_loop env rest (extracted_refs ++ [r])
                   (assign heap r (set_content article text))
            else extract_refs_loop env rest extracted_refs heap
      end
  end.

Definition extract_content_refs (env : Env) (refs : list nat) (heap : Heap)
  : M (list nat * Heap) :=
  extract_refs_loop env refs [] heap.

(** * Properties *)

(** ** Strings *)

Lemma append_assoc (a b c : string) : (a ++ b) ++ c = a ++ (b ++ c).
Proof. induction a as [|x a IH]; simpl; [reflexivity | now rewrite IH]. Qed.

Lemma append_empty_r (a : string) : a ++ "" = a.
Proof. induction a as [|x a IH]; simpl; [reflexivity | now rewrite IH]. Qed.

Lemma lower_app (a b : string) :
  Py.lower (a ++ b) = Py.lower a ++ Py.lower b.
Proof. induction a as [|x a IH]; simpl; [reflexivity | now rewrite IH]. Qed.

Lemma prefix_app (k a b : string) :
  String.prefix k a = true -> String.prefix k (a ++ b) = true.
Proof.
  revert k. induction a as [|x a IH]; intros [|y k]; simpl.
  - intros _. now destruct b.
  - discriminate.
  - reflexivity.
  - destruct (ascii_dec y x); [apply IH | discriminate].
Qed.

Lemma contains_cons (k : string) (x : ascii) (a : string) :
  Py.contains k (String x a)
  = if String.prefix k (String x a) then true else Py.contains k a.
Proof. reflexivity. Qed.

(** A substring of a text is a substring of every extension of the text. *)
Lemma contains_app (k a b : string) :
  Py.contains k a = true -> Py.contains k (a ++ b) = true.
Proof.
  induction a as [|x a IH].
  - destruct k; simpl; [intros _; destruct b; reflexivity | discriminate].
  - change (String x a ++ b) with (String x (a ++ b)).
    rewrite !contains_cons.
    destruct (String.prefix k (String x a)) eqn:P.
    + intros _.
      change (String x (a ++ b)) with (String x a ++ b).
      now rewrite (prefix_app _ _ _ P).
    + intros H. rewrite (IH H).
      now destruct (String.prefix k (String x (a ++ b))).
Qed.

Lemma prefix_split (k h : string) :
  String.prefix k h = true <-> exists post, h = k ++ post.
Proof.
  revert h. induction k as [|x k IH]; intros h.
  - split; [intros _; now exists h | intros _; now destruct h].
  - destruct h as [|y h]; simpl.
    + split; [discriminate | intros [post H]; discriminate H].
    + destruct (ascii_dec x y) as [-> | Hxy].
      * rewrite IH. split; intros [post H]; exists post.
        -- now rewrite H.
        -- now inversion H.
      * split; [discriminate | intros [post H]; inversion H; congruence].
Qed.

(** [needle in hay] holds exactly when [hay] is some text, the needle, and
    some text. *)
Lemma contains_spec (k h : string) :
  Py.contains k h = true <-> exists pre post, h = pre ++ k ++ post.
Proof.
  induction h as [|x h IH].
  - simpl. destruct k as [|y k]; simpl.
    + split; [intros _; now exists "", "" | reflexivity].
    + split; [discriminate |].
      intros (pre & post & H). destruct pre; discriminate H.
  - rewrite contains_cons.
    destruct (String.prefix k (String x h)) eqn:P.
    + split; [intros _ | reflexivity].
      apply prefix_split in P. destruct P as [post P].
      exists "", post. exact P.
    + rewrite IH. split.
      * intros (pre & post & H). exists (String x pre), post.
        simpl. now rewrite H.
      * intros (pre & post & H). destruct pre as [|y pre].
        -- simpl in H.
           assert (String.prefix k (String x h) = true)
             by (apply prefix_split; now exists post).
           congruence.
        -- inversion H. now exists pre, post.
Qed.

(** The slice of a concatenation. *)
Lemma str_slice_to_app (a b : string) (n : nat) :
  Py.str_slice_to (a ++ b) n
  = Py.str_slice_to a n ++ Py.str_slice_to b (n - String.length a).
Proof.
  unfold Py.str_slice_to. revert n.
  induction a as [|x a IH]; intros n; simpl.
  - rewrite Nat.sub_0_r. now destruct n.
  - destruct n as [|n]; simpl.
    + now destruct b.
    + now rewrite IH.
Qed.

Lemma str_slice_to_0 (b : string) : Py.str_slice_to b 0 = "".
Proof. now destruct b. Qed.

(** ** Counting keywords *)


Lemma matches_in_le (text : string) :
  matches_in text <= List.length keywords.
Proof. apply filter_length_le. Qed.


(** ** Scores as numbers *)

(** Facts about the thirty-one possible counts are checked one by one. *)
Lemma below_31 (P : nat -> bool) :
  forallb P (seq 0 31) = true -> forall m, m <= 30 -> P m = true.
Proof.
  intros H m Hm. rewrite forallb_forall in H. apply H, in_seq. lia.
Qed.

Lemma score_of_in_unit_interval (m : nat) (demo : bool) :
  m <= 30 ->
  float_le 0 (score_of m demo) /\ float_le (score_of m demo) 1.
Proof.
  intros Hm. unfold float_le. apply andb_true_iff.
  revert m Hm.
  apply (below_31 (fun m => PrimFloat.leb 0 (score_of m demo)
                            && PrimFloat.leb (score_of m demo) 1)).
  destruct demo; vm_compute; reflexivity.
Qed.

Lemma score_of_demo (m : nat) :
  m <= 30 -> float_le demo_floor (score_of m true).
Proof.
  revert m.
  apply (below_31 (fun m => PrimFloat.leb demo_floor (score_of m true))).
  vm_compute; reflexivity.
Qed.


(** ** The scorer *)

(** C3. Score boundedness: whatever the title, the summary, the content and
    the source of an article are, given or absent, empty or not, the score
    returned by the keyword scorer lies between 0.0 and 1.0. *)
Theorem keyword_based_relevance_bounded (article : Article) :
  float_le 0 (_keyword_based_relevance article)
  /\ float_le (_keyword_based_relevance article) 1.
Proof.
  unfold _keyword_based_relevance.
  apply score_of_in_unit_interval.
  apply (matches_in_le (scored_text article)).
Qed.

(** C4. Demo floor: an article whose source contains "demo", in any case of
    the letters, is scored at least 0.8; the floor of 0.8 is put under the
    raw score before it is tripled and capped at 1.0. *)
Theorem demo_articles_score_at_least_floor
  (article : Article) (pre marker post : string) :
  source article = Some (pre ++ marker ++ post) ->
  Py.lower marker = "demo" ->
  float_le demo_floor (_keyword_based_relevance article)
  /\ _keyword_based_relevance article
     = Py.min (PrimFloat.mul (Py.max (raw_score article) demo_floor) 3) 1.
Proof.
  intros Hsource Hmarker.
  assert (Hdemo : is_demo article = true).
  { unfold is_demo. rewrite Hsource. cbn [Py.get].
    rewrite !lower_app, Hmarker.
    apply contains_spec. now exists (Py.lower pre), (Py.lower post). }
  unfold _keyword_based_relevance. rewrite Hdemo. split.
  - apply score_of_demo, (matches_in_le (scored_text article)).
  - unfold score_of, raw_score. reflexivity.
Qed.

Lemma demo_articles_score_at_least_floor_witness :
  float_le demo_floor
    (_keyword_based_relevance
       (mkArticle (Some "SSDF") None None None (Some "NIST CSRC (Demo)")
          None None)).
Proof.
  apply (demo_articles_score_at_least_floor
           (mkArticle (Some "SSDF") None None None (Some "NIST CSRC (Demo)")
              None None)
           "NIST CSRC (" "Demo" ")").
  - reflexivity.
  - reflexivity.
Defined.






(** ** The filter *)

Lemma filter_loop_spec (assess : Article -> float)
  (articles filtered_articles : list Article) :
  filter_loop assess articles filtered_articles
  = (filtered_articles
     ++ map (annotate assess) (filter (above_threshold assess) articles))%list.
Proof.
  revert filtered_articles.
  induction articles as [|article rest IH]; intros acc; simpl.
  - now rewrite app_nil_r.
  - unfold above_threshold at 1.
    destruct (PrimFloat.ltb relevance_threshold (assess article)).
    + rewrite IH, <- app_assoc. reflexivity.
    + apply IH.
Qed.

(** C6. Filter threshold: the relevance filter keeps, in the order of the
    input, exactly the articles whose score is strictly greater than 0.7;
    an article that scores 0.7 or less is left out.  Each article it keeps
    comes back with its score as its [relevance_score] and with its other
    fields as they were.  With the scores 0.9, 0.7, 0.71, 0.2 the articles
    at the indices 0 and 2 are kept, and carry 0.9 and 0.71. *)
Theorem filter_keeps_scores_above_threshold :
  (forall articles : list Article,
      filter_it_relevant_content articles
      = map (fun article =>
               {| title := title article;
                  url := url article;
                  date := date article;
                  summary := summary article;
                  source := source article;
                  content := content article;
                  relevance_score :=
                    Some (_keyword_based_relevance article) |})
          (filter (fun article =>
                     PrimFloat.ltb relevance_threshold
                       (_keyword_based_relevance article))
             articles))
  /\ filter_loop score_by_title
       [unscored "first"; unscored "second"; unscored "third";
        unscored "fourth"] []
     = [ {| title := Some "first"; url := None; date := None;
            summary := None; source := None; content := Some "first";
            relevance_score := Some 0x1.ccccccccccccdp-1%float |};
         {| title := Some "third"; url := None; date := None;
            summary := None; source := None; content := Some "third";
            relevance_score := Some 0x1.6b851eb851eb8p-1%float |} ].
Proof.
  split.
  - intros articles. unfold filter_it_relevant_content.
    rewrite filter_loop_spec. cbn [app].
    unfold annotate, above_threshold, set_relevance_score, _assess_it_relevance.
    reflexivity.
  - vm_compute. reflexivity.
Qed.

(** ** Extraction *)

Section Extraction.

Variable env : Env.

(** What was extracted so far is carried along unchanged. *)
Lemma extract_loop_acc (articles acc : list Article) (w : World) :
  extract_loop env articles acc w
  = match extract_loop env articles [] w with
    | (inr out, w') => (inr (acc ++ out)%list, w')
    | (inl e, w') => (inl e, w')
    end.
Proof.
  revert acc w.
  induction articles as [|article rest IH]; intros acc w.
  - simpl. unfold ret. now rewrite app_nil_r.
  - simpl. destruct (has_content article).
    + rewrite (IH (acc ++ [article])%list), (IH [article]).
      destruct (extract_loop env rest [] w) as [[e|out] w']; trivial.
      now rewrite <- app_assoc.
    + unfold bind.
      destruct (_extract_single_article env article w) as [[e|text] w1];
        trivial.
      destruct (Py.nonempty text).
      * rewrite (IH (acc ++ [set_content article text])%list),
          (IH [set_content article text]).
        destruct (extract_loop env rest [] w1) as [[e|out] w']; trivial.
        now rewrite <- app_assoc.
      * apply IH.
Qed.

Lemma extract_loop_app (l1 l2 acc : list Article) (w : World) :
  extract_loop env (l1 ++ l2) acc w
  = match extract_loop env l1 acc w with
    | (inr out, w') => extract_loop env l2 out w'
    | (inl e, w') => (inl e, w')
    end.
Proof.
  revert acc w.
  induction l1 as [|article rest IH]; intros acc w; simpl.
  - reflexivity.
  - destruct (has_content article); [apply IH |].
    unfold bind.
    destruct (_extract_single_article env article w) as [[e|text] w1];
      trivial.
    destruct (Py.nonempty text); apply IH.
Qed.

Lemma extract_single_article_returns (article : Article) (w : World) :
  exists text w', _extract_single_article env article w = (inr text, w').
Proof.
  unfold _extract_single_article, bind, session_get, ret.
  destruct (negb (Py.nonempty (Py.get (url article) ""))); [eauto |].
  destruct (page_text env (Py.get (url article) "")); eauto.
Qed.

(** The extractor never raises. *)
Lemma extract_loop_returns (articles acc : list Article) (w : World) :
  exists out w', extract_loop env articles acc w = (inr out, w').
Proof.
  revert acc w.
  induction articles as [|article rest IH]; intros acc w; simpl.
  - unfold ret. eauto.
  - destruct (has_content article); [apply IH |].
    unfold bind.
    destruct (extract_single_article_returns article w) as (text & w1 & E).
    rewrite E. destruct (Py.nonempty text); apply IH.
Qed.

(** C7. Extractor idempotence on pre-filled content: an article whose
    content is set and not empty is passed through as it is, and nothing
    is fetched for it.  Alone, it is returned in a world left as it was;
    inside a list, the extractor does on the articles before it and after
    it what it does without it, and returns the article between their
    results. *)
Theorem extract_content_passes_prefilled_through
  (article : Article) (c : string) :
  content article = Some c ->
  c <> "" ->
  (forall w, extract_content env [article] w = (inr [article], w))
  /\ (forall pre post w,
        exists out1 w1 out2 w2,
          extract_content env pre w = (inr out1, w1)
          /\ extract_content env post w1 = (inr out2, w2)
          /\ extract_content env (pre ++ article :: post) w
             = (inr (out1 ++ article :: out2)%list, w2)).
Proof.
  intros Hc Hne.
  assert (Hhas : has_content article = true).
  { unfold has_content. rewrite Hc. destruct c; [congruence | reflexivity]. }
  split.
  - intros w. unfold extract_content. simpl. now rewrite Hhas.
  - intros pre post w. unfold extract_content.
    destruct (extract_loop_returns pre [] w) as (out1 & w1 & E1).
    destruct (extract_loop_returns post [] w1) as (out2 & w2 & E2).
    exists out1, w1, out2, w2. repeat split; trivial.
    rewrite extract_loop_app, E1. simpl. rewrite Hhas.
    rewrite extract_loop_acc, E2.
    now rewrite <- app_assoc.
Qed.

End Extraction.

Lemma extract_content_passes_prefilled_through_witness :
  extract_content offline_env [long_article] world0
  = (inr [long_article], world0).
Proof.
  apply (extract_content_passes_prefilled_through offline_env long_article
           (filler 992 ++ "software")).
  - reflexivity.
  - discriminate.
Defined.

(** ** The report *)

Lemma findings_loop_unscored (articles : list Article) :
  Exists (fun article => relevance_score article = None) articles ->
  forall i text, findings_loop articles i text = inl format_error.
Proof.
  induction 1 as [article rest Hnone | article rest _ IH]; intros i text;
    simpl; unfold finding_block.
  - now rewrite Hnone.
  - destruct (relevance_score article); [apply IH | reflexivity].
Qed.

Lemma findings_loop_scored (articles : list Article) :
  Forall scored articles ->
  forall i text,
    findings_loop articles i text = inr (text ++ findings articles i).
Proof.
  induction 1 as [|article rest Hscored _ IH]; intros i text; simpl.
  - now rewrite append_empty_r.
  - unfold finding_block, scored in *.
    destruct (relevance_score article) as [x|]; [| congruence].
    rewrite IH, append_assoc. reflexivity.
Qed.

Lemma citations_loop_spec (articles : list Article) (i : nat) (text : string) :
  citations_loop articles i text = text ++ citations articles i.
Proof.
  revert i text.
  induction articles as [|article rest IH]; intros i text; simpl.
  - now rewrite append_empty_r.
  - now rewrite IH, append_assoc.
Qed.

Section Report.

Variable env : Env.

(** The report of scored articles, part by part; the clock is read three
    times. *)
Lemma report_of_scored (articles : list Article) (w : World) :
  Forall scored articles ->
  _generate_fallback_summary env articles w
  = (inr (report_header (isoformat (clock env (ticks w)))
            (strftime (clock env (S (ticks w)))) (List.length articles)
          ++ findings articles 1
          ++ recommendations
          ++ citations articles 1
          ++ report_footer (strftime (clock env (S (S (ticks w)))))),
     {| ticks := S (S (S (ticks w))); fetched := fetched w |}).
Proof.
  intros Hscored.
  cbv [_generate_fallback_summary bind now lift ret ticks fetched].
  rewrite (findings_loop_scored articles Hscored), citations_loop_spec.
  now rewrite !append_assoc.
Qed.

(** C8. Render order preservation: in the report of two scored articles
    [A] and [B], whatever their scores and dates are, the finding of [A]
    comes before the finding of [B] and the citation of [A] before the
    citation of [B]: the report is the header, the two findings, the
    recommendations, the two citations and the footer, in this order. *)
Theorem report_preserves_order
  (A B : Article) (score_A score_B : float) (w : World) :
  relevance_score A = Some score_A ->
  relevance_score B = Some score_B ->
  fst (generate_summary env [A; B] w)
  = inr (report_header (isoformat (clock env (ticks w)))
           (strftime (clock env (S (ticks w)))) 2
         ++ finding_text 1 A score_A
         ++ finding_text 2 B score_B
         ++ recommendations
         ++ citation_line 1 A
         ++ citation_line 2 B
         ++ report_footer (strftime (clock env (S (S (ticks w)))))).
Proof.
  intros HA HB. unfold generate_summary.
  rewrite report_of_scored.
  - cbn [fst findings citations List.length].
    rewrite HA, HB. cbn [Py.get].
    now rewrite !append_empty_r, !append_assoc.
  - repeat constructor; unfold scored; congruence.
Qed.

(** C9, amended. The report is determined by the articles and by the
    three readings of the clock that go into its header and its footer:
    two runs on the same list that read the same times return the same
    text or raise the same error; and a run fetches nothing. *)
Theorem report_determined_by_articles_and_clock
  (articles : list Article) (w1 w2 : World) :
  clock env (ticks w1) = clock env (ticks w2) ->
  clock env (S (ticks w1)) = clock env (S (ticks w2)) ->
  clock env (S (S (ticks w1))) = clock env (S (S (ticks w2))) ->
  fst (generate_summary env articles w1)
  = fst (generate_summary env articles w2)
  /\ fetched (snd (generate_summary env articles w1)) = fetched w1.
Proof.
  intros H1 H2 H3.
  cbv [generate_summary _generate_fallback_summary bind now lift ret].
  cbn [ticks fetched].
  rewrite H1, H2.
  destruct (findings_loop articles 1 _) as [e|text];
    cbn [fst snd ticks fetched].
  - split; reflexivity.
  - rewrite H3. split; reflexivity.
Qed.

(** C10. The report of a list in which some article has no relevance
    score is not returned: formatting the default ['N/A'] with two
    decimals raises a [ValueError]. *)
Theorem report_raises_on_unscored_article
  (articles : list Article) (w : World) :
  Exists (fun article => relevance_score article = None) articles ->
  fst (generate_summary env articles w) = inl format_error.
Proof.
  intros Hnone.
  cbv [generate_summary _generate_fallback_summary bind now lift ret
       ticks fetched].
  now rewrite (findings_loop_unscored articles Hnone).
Qed.

(** Conversely, the report of scored articles is returned. *)
Lemma report_returned_on_scored_articles
  (articles : list Article) (w : World) :
  Forall scored articles ->
  exists text, fst (generate_summary env articles w) = inr text.
Proof.
  intros Hscored. unfold generate_summary.
  rewrite (report_of_scored articles w Hscored). cbn [fst]. eauto.
Qed.

End Report.

Lemma report_preserves_order_witness :
  exists text,
    fst (generate_summary offline_env [doc_020; doc_090] world0) = inr text.
Proof.
  eexists.
  apply (report_preserves_order offline_env doc_020 doc_090
           0x1.999999999999ap-3 0x1.ccccccccccccdp-1 world0);
    reflexivity.
Defined.

Lemma report_determined_by_articles_and_clock_witness :
  fst (generate_summary offline_env scored_demo_articles world0)
  = fst (generate_summary offline_env scored_demo_articles
           {| ticks := 0; fetched := ["https://csrc.nist.gov"] |}).
Proof.
  apply (report_determined_by_articles_and_clock offline_env
           scored_demo_articles world0
           {| ticks := 0; fetched := ["https://csrc.nist.gov"] |});
    reflexivity.
Defined.

Lemma report_raises_on_unscored_article_witness :
  fst (generate_summary offline_env demo_articles world0) = inl format_error.
Proof.
  apply (report_raises_on_unscored_article offline_env demo_articles world0).
  apply Exists_cons_hd. reflexivity.
Defined.

(** C9, as stated, fails: the report carries the time of its generation in
    its header and in its footer, so a second run on the same articles,
    right after the first, returns another text. *)
Lemma report_differs_between_two_runs :
  ~ (forall (env : Env) (articles : list Article) (w1 w2 : World),
        fst (generate_summary env articles w1)
        = fst (generate_summary env articles w2)).
Proof.
  intros H.
  specialize (H offline_env scored_demo_articles world0
                (snd (generate_summary offline_env scored_demo_articles
                        world0))).
  apply (f_equal report_text) in H.
  apply String.eqb_eq in H.
  vm_compute in H. discriminate H.
Qed.

(** ** Retrieval *)

Lemma slice_to_nonneg {A : Type} (l : list A) (n : Z) :
  (0 <= n)%Z -> Py.slice_to l n = firstn (Z.to_nat n) l.
Proof.
  intros Hn. unfold Py.slice_to.
  destruct (Z.ltb_spec n 0); [lia | reflexivity].
Qed.

Lemma slice_to_0 {A : Type} (l : list A) : Py.slice_to l 0 = [].
Proof. reflexivity. Qed.

Lemma demo_corpus_size : Py.len demo_articles = 3%Z.
Proof. reflexivity. Qed.

Section Retrieval.

Variable env : Env.

(** When the scraper finds nothing, the loop over the terms ends with
    nothing. *)
Lemma csrc_loop_nothing (terms : list string) (max_results : Z) :
  (0 < max_results)%Z ->
  (forall term limit, _search_nist_csrc env term limit = []) ->
  csrc_loop env terms max_results [] = [].
Proof.
  intros Hpos Hprimary.
  induction terms as [|term rest IH]; simpl; [reflexivity |].
  rewrite Hprimary. simpl.
  destruct (Z.leb_spec max_results (Py.len (@nil Article)));
    [unfold Py.len in *; simpl in *; lia | exact IH].
Qed.

(** C1. Aggregator non-starvation: for a positive [max_results], when the
    scraper and the search both yield nothing, the aggregator returns the
    first [min(max_results, 3)] articles of the demo corpus, whose size
    is 3. *)
Theorem search_returns_demo_articles_when_sources_are_empty
  (topic : option string) (max_results : Z) :
  (0 < max_results)%Z ->
  (forall term limit, _search_nist_csrc env term limit = []) ->
  (forall query limit, _google_search_nist env query limit = []) ->
  search_nist_updates env topic max_results
  = firstn (Z.to_nat (Z.min max_results (Py.len demo_articles)))
      demo_articles
  /\ Py.len (search_nist_updates env topic max_results)
     = Z.min max_results (Py.len demo_articles).
Proof.
  intros Hpos Hprimary Hsecondary.
  assert (Hsearch : search_nist_updates env topic max_results
                    = firstn (Z.to_nat max_results) demo_articles).
  { unfold search_nist_updates. cbv zeta.
    rewrite (csrc_loop_nothing _ _ Hpos Hprimary).
    change (Py.len (@nil Article)) with 0%Z.
    rewrite (proj2 (Z.ltb_lt 0 max_results) Hpos).
    rewrite Hsecondary.
    replace (if true && google_configured env then ([] ++ [])%list else [])
      with (@nil Article) by (now destruct (google_configured env)).
    change (Py.len (@nil Article)) with 0%Z.
    rewrite (proj2 (Z.ltb_lt 0 max_results) Hpos).
    rewrite Z.sub_0_r. cbn [app]. unfold _get_demo_nist_data.
    rewrite !(slice_to_nonneg demo_articles) by lia.
    destruct (Z.to_nat max_results) as [|k] eqn:Ek; [lia |].
    change (Py.len (firstn (S k) demo_articles) =? 0)%Z with false.
    rewrite slice_to_nonneg by lia.
    rewrite Ek, firstn_firstn, Nat.min_id. reflexivity. }
  rewrite Hsearch, demo_corpus_size.
  assert (Hfirst : firstn (Z.to_nat max_results) demo_articles
                   = firstn (Z.to_nat (Z.min max_results 3)) demo_articles).
  { destruct (Z.le_ge_cases max_results 3) as [Hle | Hge].
    - now rewrite Z.min_l.
    - rewrite Z.min_r by assumption.
      rewrite !firstn_all2; trivial;
        change (List.length demo_articles) with 3%nat; lia. }
  rewrite Hfirst. split; [reflexivity |].
  unfold Py.len. rewrite length_firstn.
  change (List.length demo_articles) with 3%nat. lia.
Qed.

(** A request for no article retrieves no article. *)
Lemma search_for_nothing (topic : option string) :
  search_nist_updates env topic 0 = [].
Proof. unfold search_nist_updates. cbv zeta. apply slice_to_0. Qed.

End Retrieval.

Lemma offline_google_search_empty (query : option string) (limit : Z) :
  _google_search_nist offline_env query limit = [].
Proof. reflexivity. Qed.

Lemma search_returns_demo_articles_when_sources_are_empty_witness :
  search_nist_updates offline_env None 2 = firstn 2 demo_articles
  /\ Py.len (search_nist_updates offline_env None 2) = 2%Z.
Proof.
  apply (search_returns_demo_articles_when_sources_are_empty offline_env
           None 2).
  - lia.
  - reflexivity.
  - reflexivity.
Defined.

(** ** The request handler *)

Section Handler.

Variable env : Env.

(** Whatever is raised inside the handler leaves it with status 500. *)
Lemma run_workflow_raises_only_500
  (request : WorkflowRequest) (w w' : World) (e : exn) :
  run_workflow env request w = (inl e, w') ->
  exists detail, e = HTTPException 500 detail.
Proof.
  unfold run_workflow, try_except, raise.
  destruct (workflow_steps env request w) as [[e0|response] w0];
    intros H; inversion H; eauto.
Qed.

(** C2, on the code. A request that retrieves no article is answered by
    status 500, not 404: the [HTTPException] with status 404 is raised
    inside the [try] block whose handler turns every exception into
    status 500.  A request for [max_articles = 0] is such a request. *)
Theorem run_workflow_answers_500_when_nothing_is_retrieved
  (requested : option string) (w : World) :
  run_workflow env {| topic := requested; max_articles := 0 |} w
  = (inl (HTTPException 500
            (HTTPException_str env 404 "No NIST updates found")), w).
Proof.
  unfold run_workflow, try_except, workflow_steps.
  cbn [topic max_articles].
  rewrite search_for_nothing. reflexivity.
Qed.

(** Likewise when articles are retrieved and none passes the filter. *)
Lemma run_workflow_answers_500_when_nothing_is_relevant
  (request : WorkflowRequest) (w w' : World)
  (extracted : list Article) :
  search_nist_updates env (topic request) (max_articles request) <> [] ->
  extract_content env
    (search_nist_updates env (topic request) (max_articles request)) w
  = (inr extracted, w') ->
  filter_it_relevant_content extracted = [] ->
  run_workflow env request w
  = (inl (HTTPException 500
            (HTTPException_str env 404
               "No relevant articles found for IT organizations")), w').
Proof.
  intros Hfound Hextract Hnone.
  unfold run_workflow, try_except, workflow_steps.
  destruct (search_nist_updates env (topic request) (max_articles request))
    as [|a l]; [congruence |].
  unfold bind. rewrite Hextract, Hnone. reflexivity.
Qed.

End Handler.

(** With a scraper that finds a publication whose page cannot be fetched,
    nothing is left to filter, and the answer is status 500. *)
Example run_workflow_scraped_but_irrelevant :
  fst (run_workflow scraping_env {| topic := None; max_articles := 3 |}
         world0)
  = inl (HTTPException 500
           "404: No relevant articles found for IT organizations").
Proof. vm_compute. reflexivity. Qed.

(** * Further properties of the code *)

(** ** Retrieval in general *)

Section RetrievalInGeneral.

Variable env : Env.

Lemma search_nist_updates_steps (topic : option string) (max_results : Z) :
  search_nist_updates env topic max_results
  = let real := real_source_articles env topic max_results in
    let articles :=
      if (Py.len real <? max_results)%Z
      then (real ++ _get_demo_nist_data (max_results - Py.len real))%list
      else real in
    let articles :=
      if (Py.len articles =? 0)%Z then _get_demo_nist_data max_results
      else articles in
    Py.slice_to articles max_results.
Proof. reflexivity. Qed.

(** For a positive bound the result is what the real sources supplied, cut
    at the bound, followed by as many demo articles as are missing. *)
Lemma search_nist_updates_positive (topic : option string) (max_results : Z) :
  (0 < max_results)%Z ->
  search_nist_updates env topic max_results
  = (firstn (Z.to_nat max_results)
       (real_source_articles env topic max_results)
     ++ firstn
          (Z.to_nat
             (max_results
              - Py.len (real_source_articles env topic max_results)))
          demo_articles)%list.
Proof.
  intros Hpos. rewrite search_nist_updates_steps. cbv zeta.
  set (real := real_source_articles env topic max_results).
  unfold _get_demo_nist_data.
  destruct (Z.ltb_spec (Py.len real) max_results) as [Hlt | Hge].
  - rewrite (slice_to_nonneg demo_articles) by lia.
    destruct (Z.to_nat (max_results - Py.len real)) as [|d] eqn:Ed;
      [unfold Py.len in *; lia |].
    replace (Py.len (real ++ firstn (S d) demo_articles) =? 0)%Z with false.
    + rewrite slice_to_nonneg by lia.
      rewrite firstn_app, firstn_firstn.
      replace (Z.to_nat max_results - List.length real)%nat with (S d)
        by (unfold Py.len in *; lia).
      now rewrite Nat.min_id.
    + symmetry. apply Z.eqb_neq. unfold Py.len.
      rewrite length_app. cbn [firstn demo_articles List.length]. lia.
  - replace (Py.len real =? 0)%Z with false
      by (symmetry; apply Z.eqb_neq; lia).
    rewrite slice_to_nonneg by lia.
    replace (Z.to_nat (max_results - Py.len real)) with 0%nat by lia.
    now rewrite app_nil_r.
Qed.

(** X1. A request for a non-negative number of articles is answered by at
    most that many, and by none only when none were asked for: with a
    positive bound the aggregator never comes back empty-handed, whatever
    the sources do. *)
Theorem search_is_bounded_and_never_starves
  (topic : option string) (max_results : Z) :
  (0 <= max_results)%Z ->
  (Py.len (search_nist_updates env topic max_results) <= max_results)%Z
  /\ (search_nist_updates env topic max_results = [] <-> max_results = 0%Z).
Proof.
  intros Hnonneg. split.
  - rewrite search_nist_updates_steps. cbv zeta.
    rewrite slice_to_nonneg by assumption.
    unfold Py.len.
    match goal with
    | |- (Z.of_nat (List.length (firstn ?n ?l)) <= _)%Z =>
        pose proof (firstn_le_length n l)
    end.
    lia.
  - split.
    + intros Hempty.
      destruct (Z.eq_dec max_results 0) as [| Hne]; [assumption |].
      rewrite search_nist_updates_positive in Hempty by lia.
      apply app_eq_nil in Hempty. destruct Hempty as [Hreal Hdemo].
      set (real := real_source_articles env topic max_results) in *.
      destruct (Z.ltb_spec (Py.len real) max_results) as [Hlt | Hge].
      * destruct (Z.to_nat (max_results - Py.len real)) eqn:Ed;
          [lia | discriminate Hdemo].
      * destruct real as [|a real']; [unfold Py.len in Hge; simpl in Hge; lia |].
        destruct (Z.to_nat max_results) eqn:Em; [lia | discriminate Hreal].
    + intros ->. apply search_for_nothing.
Qed.

(** X2. With a positive bound the number of articles returned is the bound
    or, if that is less, the number the real sources supplied plus the
    three of the demo corpus; so a request for up to three articles is
    always served in full. *)
Theorem search_returns_bound_or_found_plus_demo
  (topic : option string) (max_results : Z) :
  (0 < max_results)%Z ->
  Py.len (search_nist_updates env topic max_results)
  = Z.min max_results
      (Py.len (real_source_articles env topic max_results)
       + Py.len demo_articles)
  /\ ((max_results <= 3)%Z ->
      Py.len (search_nist_updates env topic max_results) = max_results).
Proof.
  intros Hpos.
  assert (Hlen : Py.len (search_nist_updates env topic max_results)
                 = Z.min max_results
                     (Py.len (real_source_articles env topic max_results)
                      + 3)).
  { rewrite search_nist_updates_positive by assumption.
    set (real := real_source_articles env topic max_results).
    unfold Py.len. rewrite length_app, !length_firstn.
    change (List.length demo_articles) with 3%nat. lia. }
  rewrite demo_corpus_size. split; [exact Hlen |].
  intros Hsmall. rewrite Hlen. unfold Py.len. lia.
Qed.

(** X3. The articles of the real sources come first: if they supplied the
    bound or more, the result is their first [max_results] articles and
    holds no demo article; if they supplied fewer, all of them are kept in
    their order and only demo articles follow. *)
Theorem search_puts_real_sources_before_demo
  (topic : option string) (max_results : Z) :
  (0 < max_results)%Z ->
  ((max_results <= Py.len (real_source_articles env topic max_results))%Z ->
   search_nist_updates env topic max_results
   = firstn (Z.to_nat max_results)
       (real_source_articles env topic max_results))
  /\ ((Py.len (real_source_articles env topic max_results) < max_results)%Z ->
      exists k,
        (0 < k)%nat
        /\ search_nist_updates env topic max_results
           = (real_source_articles env topic max_results
              ++ firstn k demo_articles)%list).
Proof.
  intros Hpos. rewrite search_nist_updates_positive by assumption.
  set (real := real_source_articles env topic max_results).
  split.
  - intros Hge.
    replace (Z.to_nat (max_results - Py.len real)) with 0%nat by lia.
    now rewrite app_nil_r.
  - intros Hlt. exists (Z.to_nat (max_results - Py.len real)).
    split; [lia |].
    rewrite firstn_all2 by (unfold Py.len in Hlt; lia). reflexivity.
Qed.

(** X4. The topic of a request never reaches the scraper, which is asked
    for the first three standard terms only: without a configured search
    the result is the same for every topic. *)
Theorem search_ignores_topic_without_search_credentials
  (topic1 topic2 : option string) (max_results : Z) :
  google_configured env = false ->
  search_nist_updates env topic1 max_results
  = search_nist_updates env topic2 max_results.
Proof.
  intros Hoff.
  assert (Hterms : forall topic,
             Py.slice_to
               (NIST_SEARCH_TERMS
                ++ (if Py.truthy topic then [Py.get topic ""] else []))%list 3
             = ["NIST SP 800-53"; "NIST SP 800-171"; "NIST SP 800-218"])
    by (intros topic; reflexivity).
  unfold search_nist_updates. cbv zeta.
  rewrite !Hterms, Hoff, !andb_false_r. reflexivity.
Qed.

(** X5. The search adapter returns nothing unless both credentials are set;
    it returns at most [limit] articles for a non-negative [limit]; and
    each of its articles is marked as found by the search and carries
    neither content nor score. *)
Theorem google_search_is_gated_bounded_and_plain
  (query : option string) (limit : Z) :
  (google_configured env = false ->
   _google_search_nist env query limit = [])
  /\ ((0 <= limit)%Z ->
      (Py.len (_google_search_nist env query limit) <= limit)%Z)
  /\ Forall (fun article =>
               source article = Some "Google Search"
               /\ content article = None
               /\ relevance_score article = None)
       (_google_search_nist env query limit).
Proof.
  unfold _google_search_nist, google_configured.
  destruct (Py.truthy (GOOGLE_API_KEY env)), (Py.truthy (SEARCH_ENGINE_ID env));
    cbn [negb orb andb];
    try (split; [reflexivity | split; [unfold Py.len; simpl; lia | constructor]]).
  destruct (custom_search env _ _) as [items|];
    [| split; [discriminate | split; [unfold Py.len; simpl; lia | constructor]]].
  split; [discriminate | split].
  - intros Hlimit. rewrite slice_to_nonneg by assumption.
    unfold Py.len. rewrite length_map.
    pose proof (firstn_le_length (Z.to_nat limit) items). lia.
  - apply Forall_forall. intros article Hin.
    apply in_map_iff in Hin. destruct Hin as (item & <- & _).
    split; [reflexivity | split; reflexivity].
Qed.

End RetrievalInGeneral.

Lemma search_is_bounded_and_never_starves_witness :
  (Py.len (search_nist_updates searching_env (Some "cui") 2) <= 2)%Z.
Proof.
  apply (search_is_bounded_and_never_starves searching_env (Some "cui") 2).
  lia.
Defined.

Lemma search_returns_bound_or_found_plus_demo_witness :
  Py.len (search_nist_updates searching_env (Some "cui") 7) = 4%Z.
Proof.
  apply (search_returns_bound_or_found_plus_demo searching_env (Some "cui") 7).
  lia.
Defined.

Lemma search_puts_real_sources_before_demo_witness :
  exists k,
    (0 < k)%nat
    /\ search_nist_updates searching_env None 7
       = (real_source_articles searching_env None 7
          ++ firstn k demo_articles)%list.
Proof.
  apply (search_puts_real_sources_before_demo searching_env None 7).
  - lia.
  - vm_compute. reflexivity.
Defined.

Lemma search_ignores_topic_without_search_credentials_witness :
  search_nist_updates scraping_env (Some "cloud") 6
  = search_nist_updates scraping_env None 6.
Proof.
  apply (search_ignores_topic_without_search_credentials scraping_env
           (Some "cloud") None 6).
  reflexivity.
Defined.

(** ** The scraper *)

Lemma clean_link_absolute (link : string) :
  clean_link link = "" \/ String.prefix "http" (clean_link link) = true.
Proof.
  unfold clean_link. destruct link as [|c l]; [left; reflexivity |].
  right. cbn [Py.nonempty andb].
  destruct (String.prefix "http" (String c l)) eqn:E; cbn [negb];
    [exact E | reflexivity].
Qed.

Lemma relevant_title_inv (text : string) :
  relevant_title text = true ->
  (10 < String.length text)%nat
  /\ exists marker,
       In marker title_markers
       /\ Py.contains marker (Py.lower text) = true.
Proof.
  unfold relevant_title. rewrite !andb_true_iff.
  intros [[_ Hlen] Hany]. split.
  - now apply Nat.ltb_lt.
  - apply existsb_exists in Hany. exact Hany.
Qed.

Section ScraperProperties.

Variable env : Env.

Lemma scrape_loop_spec (term : string) (limit : Z)
  (search_results : list Element) :
  forall (count : Z) (articles : list Article) (w : World),
  exists out w',
    scrape_loop env term limit search_results count articles w
    = (inr (articles ++ out)%list, w')
    /\ Forall (scraped_for term) out
    /\ (Z.of_nat (List.length out) <= Z.max 0 (limit - count))%Z
    /\ (List.length out <= List.length search_results)%nat
    /\ fetched w' = fetched w
    /\ ticks w' = (ticks w + List.length out)%nat.
Proof.
  induction search_results as [|result rest IH]; intros count articles w.
  - exists [], w. cbn [scrape_loop]. unfold ret. rewrite app_nil_r.
    repeat split; simpl; try lia. constructor.
  - cbn [scrape_loop].
    destruct (Z.leb_spec limit count) as [Hfull | Hroom].
    { exists [], w. unfold ret. rewrite app_nil_r.
      repeat split; simpl; try lia. constructor. }
    destruct (title_and_link result) as [[text link]|].
    2:{ destruct (IH count articles w) as (out & w' & E & HP & Hn & Hl & Hf & Ht).
        exists out, w'. repeat split; trivial. simpl. lia. }
    cbv zeta. destruct (relevant_title text) eqn:Hrel.
    2:{ destruct (IH count articles w) as (out & w' & E & HP & Hn & Hl & Hf & Ht).
        exists out, w'. repeat split; trivial. simpl. lia. }
    unfold bind, now.
    set (article := scraped_article text (clean_link link) term
                      (clock env (ticks w))).
    destruct (IH (count + 1)%Z (articles ++ [article])%list
                {| ticks := S (ticks w); fetched := fetched w |})
      as (out & w' & E & HP & Hn & Hl & Hf & Ht).
    exists (article :: out), w'.
    split; [rewrite E, <- app_assoc; reflexivity |].
    split.
    { constructor; [| exact HP].
      destruct (relevant_title_inv text Hrel) as [Hlen Hmarker].
      unfold scraped_for, article, scraped_article. cbn.
      repeat split; trivial.
      - exists text. repeat split; trivial.
      - exists (clean_link link). split; [reflexivity |].
        apply clean_link_absolute. }
    cbn [ticks fetched] in *. cbn [List.length].
    repeat split; try lia. exact Hf.
Qed.

(** X6. The loop of the scraper over the elements of a page never raises
    and makes no request.  For a non-negative limit it makes at most
    [limit] articles, and for a limit of zero or less none at all; it makes
    at most one article per element of the page, and reads the clock once
    for each article it makes. *)
Theorem scrape_is_bounded_by_limit_and_page
  (term : string) (limit : Z) (search_results : list Element) (w : World) :
  exists out w',
    scrape env term limit search_results w = (inr out, w')
    /\ (Z.of_nat (List.length out) <= Z.max 0 limit)%Z
    /\ (List.length out <= List.length search_results)%nat
    /\ fetched w' = fetched w
    /\ ticks w' = (ticks w + List.length out)%nat.
Proof.
  destruct (scrape_loop_spec term limit search_results 0 [] w)
    as (out & w' & E & _ & Hn & Hl & Hf & Ht).
  exists out, w'. unfold scrape. rewrite E.
  repeat split; trivial. lia.
Qed.

(** X7. Every article the scraper makes is marked as coming from NIST
    CSRC, names the term in its summary, and has neither content nor score;
    its title has more than ten characters and contains, in lower case, one
    of the four markers; its address is empty or absolute. *)
Theorem scrape_makes_well_formed_articles
  (term : string) (limit : Z) (search_results : list Element) (w : World) :
  exists out w',
    scrape env term limit search_results w = (inr out, w')
    /\ Forall (scraped_for term) out.
Proof.
  destruct (scrape_loop_spec term limit search_results 0 [] w)
    as (out & w' & E & HP & _).
  exists out, w'. unfold scrape. rewrite E. split; trivial.
Qed.

End ScraperProperties.

(** ** Extraction in general *)

Lemma str_slice_to_length (s : string) (n : nat) :
  (String.length (Py.str_slice_to s n) <= n)%nat.
Proof.
  unfold Py.str_slice_to. revert s.
  induction n as [|n IH]; intros [|c s]; simpl; try lia.
  specialize (IH s). lia.
Qed.

Lemma nonempty_false (s : string) : Py.nonempty s = false -> s = "".
Proof. destruct s; [reflexivity | discriminate]. Qed.

Section ExtractionInGeneral.

Variable env : Env.

Lemma extract_single_article_spec (article : Article) (w : World) :
  _extract_single_article env article w
  = (inr (fetched_text env article),
     {| ticks := ticks w;
        fetched := (fetched w
                    ++ (if Py.nonempty (Py.get (url article) "")
                        then [Py.get (url article) ""] else []))%list |}).
Proof.
  unfold _extract_single_article, fetched_text, bind, session_get, ret.
  destruct (Py.nonempty (Py.get (url article) "")); cbn [negb].
  - destruct (page_text env (Py.get (url article) "")); reflexivity.
  - rewrite app_nil_r. now destruct w.
Qed.

Lemma extract_loop_spec (articles acc : list Article) (w : World) :
  extract_loop env articles acc w
  = (inr (acc ++ flat_map (extracted env) articles)%list,
     {| ticks := ticks w;
        fetched := (fetched w ++ flat_map requested articles)%list |}).
Proof.
  revert acc w.
  induction articles as [|article rest IH]; intros acc w.
  - cbn [extract_loop flat_map]. unfold ret. rewrite !app_nil_r.
    now destruct w.
  - cbn [extract_loop flat_map]. unfold extracted at 1, requested at 1.
    destruct (has_content article).
    + rewrite IH, <- app_assoc. reflexivity.
    + unfold bind. rewrite extract_single_article_spec.
      destruct (Py.nonempty (fetched_text env article)) eqn:Htext.
      * rewrite IH. cbn [ticks fetched]. rewrite <- !app_assoc.
        assert (Hurl : Py.nonempty (Py.get (url article) "") = true).
        { unfold fetched_text in Htext.
          destruct (Py.nonempty (Py.get (url article) ""));
            [reflexivity | discriminate Htext]. }
        rewrite Hurl. reflexivity.
      * rewrite IH. cbn [ticks fetched]. rewrite <- !app_assoc.
        reflexivity.
Qed.

Lemma deref_assign_same (heap : Heap) (r : nat) (a article : Article) :
  deref heap r = Some a -> deref (assign heap r article) r = Some article.
Proof.
  unfold deref. revert r.
  induction heap as [|x heap IH]; intros [|r]; simpl; try discriminate.
  - reflexivity.
  - apply IH.
Qed.

Lemma deref_assign_other (heap : Heap) (r r' : nat) (article : Article) :
  r <> r' -> deref (assign heap r article) r' = deref heap r'.
Proof.
  unfold deref. revert r r'.
  induction heap as [|x heap IH]; intros [|r] [|r'] Hne; simpl; trivial.
  - congruence.
  - apply IH. congruence.
Qed.

Lemma flat_map_ext_in {A B : Type} (f g : A -> list B) (l : list A) :
  (forall x, In x l -> f x = g x) -> flat_map f l = flat_map g l.
Proof.
  induction l as [|x l IH]; intros H; [reflexivity |].
  cbn [flat_map]. rewrite (H x (or_introl eq_refl)), IH; [reflexivity |].
  intros y Hy. apply H. now right.
Qed.

(** The loop on references, for references that are all different. *)
Lemma extract_refs_loop_spec (refs : list nat) :
  forall (acc : list nat) (heap : Heap) (w : World),
    NoDup refs ->
    exists heap',
      extract_refs_loop env refs acc heap w
      = (inr ((acc ++ filter (kept_at env heap) refs)%list, heap'),
         {| ticks := ticks w;
            fetched :=
              (fetched w ++ flat_map (requested_at heap) refs)%list |})
      /\ (forall r, In r refs ->
                    deref heap' r
                    = option_map (after_extraction env) (deref heap r))
      /\ (forall r, ~ In r refs -> deref heap' r = deref heap r).
Proof.
  induction refs as [|r rest IH]; intros acc heap w Hnodup.
  - exists heap. cbn [extract_refs_loop filter flat_map]. unfold ret.
    rewrite !app_nil_r. split; [now destruct w |].
    split; [intros r [] | reflexivity].
  - apply NoDup_cons_iff in Hnodup. destruct Hnodup as [Hfresh Hnodup].
    cbn [extract_refs_loop filter flat_map].
    unfold kept_at at 1, requested_at at 1.
    destruct (deref heap r) as [a|] eqn:Hr.
    + destruct (has_content a) eqn:Hhas.
      * destruct (IH (acc ++ [r])%list heap w Hnodup)
          as (heap' & Hrun & Hin & Hout).
        exists heap'. cbn [orb]. unfold requested. rewrite Hhas.
        split; [rewrite Hrun, <- app_assoc; reflexivity |].
        split.
        -- intros r0 [<- | Hr0]; [| now apply Hin].
           rewrite (Hout r Hfresh), Hr. cbn [option_map].
           unfold after_extraction. now rewrite Hhas.
        -- intros r0 Hr0. apply Hout. intros Hrest. apply Hr0. now right.
      * unfold bind. rewrite extract_single_article_spec.
        cbn [orb]. unfold requested. rewrite Hhas.
        destruct (Py.nonempty (fetched_text env a)) eqn:Htext.
        -- set (heap1 := assign heap r (set_content a (fetched_text env a))).
           assert (Hsame : forall r', In r' rest ->
                                      deref heap1 r' = deref heap r').
           { intros r' Hr'. apply deref_assign_other. congruence. }
           destruct (IH (acc ++ [r])%list heap1
                       {| ticks := ticks w;
                          fetched :=
                            (fetched w
                             ++ (if Py.nonempty (Py.get (url a) "")
                                 then [Py.get (url a) ""] else []))%list |}
                       Hnodup)
             as (heap' & Hrun & Hin & Hout).
           exists heap'. split.
           { rewrite Hrun. cbn [ticks fetched]. rewrite <- !app_assoc.
             rewrite (filter_ext_in (kept_at env heap1) (kept_at env heap) rest)
               by (intros r' Hr'; unfold kept_at; now rewrite Hsame).
             rewrite (flat_map_ext_in (requested_at heap1) (requested_at heap)
                        rest)
               by (intros r' Hr'; unfold requested_at; now rewrite Hsame).
             reflexivity. }
           split.
           { intros r0 [<- | Hr0].
             - rewrite (Hout r Hfresh). unfold heap1.
               rewrite (deref_assign_same heap r a _ Hr), Hr.
               cbn [option_map]. unfold after_extraction.
               now rewrite Hhas, Htext.
             - rewrite (Hin r0 Hr0). now rewrite Hsame. }
           { intros r0 Hr0.
             rewrite Hout by (intros Hrest; apply Hr0; now right).
             apply deref_assign_other. intros ->. apply Hr0. now left. }
        -- destruct (IH acc heap
                       {| ticks := ticks w;
                          fetched :=
                            (fetched w
                             ++ (if Py.nonempty (Py.get (url a) "")
                                 then [Py.get (url a) ""] else []))%list |}
                       Hnodup)
             as (heap' & Hrun & Hin & Hout).
           exists heap'. split.
           { rewrite Hrun. cbn [ticks fetched]. rewrite <- !app_assoc.
             reflexivity. }
           split.
           { intros r0 [<- | Hr0]; [| now apply Hin].
             rewrite (Hout r Hfresh), Hr. cbn [option_map].
             unfold after_extraction. now rewrite Hhas, Htext. }
           { intros r0 Hr0. apply Hout. intros Hrest. apply Hr0. now right. }
    + destruct (IH acc heap w Hnodup) as (heap' & Hrun & Hin & Hout).
      exists heap'. split; [exact Hrun |].
      split.
      * intros r0 [<- | Hr0]; [| now apply Hin].
        now rewrite (Hout r Hfresh), Hr.
      * intros r0 Hr0. apply Hout. intros Hrest. apply Hr0. now right.
Qed.


(** On different dictionaries the extractor on values, which the other
    properties are about, does what the extractor on references does: the
    same requests, and the values of the dictionaries returned. *)
Lemma extract_content_agrees_on_different_dictionaries
  (refs : list nat) (articles : list Article) (heap : Heap) (w : World) :
  NoDup refs ->
  Forall2 (fun r article => deref heap r = Some article) refs articles ->
  exists out heap' out_articles w',
    extract_content_refs env refs heap w = (inr (out, heap'), w')
    /\ extract_content env articles w = (inr out_articles, w')
    /\ Forall2 (fun r article => deref heap' r = Some article)
         out out_articles.
Proof.
  intros Hnodup Hvalues.
  destruct (extract_refs_loop_spec refs [] heap w Hnodup)
    as (heap' & Hrun & Hin & _).
  exists (filter (kept_at env heap) refs), heap',
    (flat_map (extracted env) articles).
  eexists. unfold extract_content_refs, extract_content.
  rewrite Hrun, extract_loop_spec. cbn [app].
  assert (Hrequests : flat_map (requested_at heap) refs
                      = flat_map requested articles).
  { clear Hin Hrun. induction Hvalues as [|r a refs' articles' Hr _ IH];
      [reflexivity |].
    apply NoDup_cons_iff in Hnodup.
    cbn [flat_map]. unfold requested_at at 1. rewrite Hr, IH; tauto. }
  rewrite Hrequests. split; [reflexivity | split; [reflexivity |]].
  clear Hrun Hrequests.
  induction Hvalues as [|r a refs' articles' Hr _ IH]; [constructor |].
  apply NoDup_cons_iff in Hnodup. destruct Hnodup as [Hfresh Hnodup].
  cbn [filter flat_map]. unfold kept_at at 1, extracted at 1. rewrite Hr.
  pose proof (Hin r (or_introl eq_refl)) as Hafter.
  rewrite Hr in Hafter. cbn [option_map] in Hafter.
  unfold after_extraction in Hafter.
  assert (Hrest : Forall2 (fun r0 article => deref heap' r0 = Some article)
                    (filter (kept_at env heap) refs')
                    (flat_map (extracted env) articles')).
  { apply IH; [exact Hnodup |]. intros r0 Hr0. apply Hin. now right. }
  destruct (has_content a); cbn [orb app].
  - constructor; assumption.
  - destruct (Py.nonempty (fetched_text env a)); cbn [app].
    + constructor; assumption.
    + exact Hrest.
Qed.

(** X9. What the extractor returns is ready for the scorer: every article
    it returns has content that is not empty, and is an article of the
    input, either as it was or with fetched text of at most 50,000
    characters as its content and everything else as it was; and it returns
    no more articles than it was given. *)
Theorem extract_content_returns_articles_with_content
  (articles : list Article) (w : World) :
  exists out w',
    extract_content env articles w = (inr out, w')
    /\ (List.length out <= List.length articles)%nat
    /\ Forall
         (fun article' =>
            has_content article' = true
            /\ exists article,
                 In article articles
                 /\ (article' = article
                     \/ exists text,
                          has_content article = false
                          /\ article' = set_content article text
                          /\ (Z.of_nat (String.length text) <= 50000)%Z))
         out.
Proof.
  exists (flat_map (extracted env) articles). eexists.
  split; [unfold extract_content; apply extract_loop_spec |].
  split.
  - induction articles as [|article rest IH]; [simpl; lia |].
    cbn [flat_map]. rewrite length_app. unfold extracted at 1.
    destruct (has_content article);
      [| destruct (Py.nonempty (fetched_text env article))];
      simpl; lia.
  - apply Forall_forall. intros article' Hin.
    apply in_flat_map in Hin. destruct Hin as (article & Hin & Hext).
    unfold extracted in Hext.
    destruct (has_content article) eqn:Hhas.
    + destruct Hext as [<- | []]. split; [exact Hhas |].
      exists article. split; [exact Hin | now left].
    + destruct (Py.nonempty (fetched_text env article)) eqn:Htext;
        [| destruct Hext].
      destruct Hext as [<- | []]. split.
      * unfold has_content, set_content. cbn [content].
        destruct (fetched_text env article); [discriminate Htext | reflexivity].
      * exists article. split; [exact Hin | right].
        exists (fetched_text env article).
        split; [exact Hhas | split; [reflexivity |]].
        unfold fetched_text.
        destruct (Py.nonempty (Py.get (url article) "")); [| simpl; lia].
        destruct (page_text env (Py.get (url article) "")); [| simpl; lia].
        pose proof (str_slice_to_length s (Z.to_nat 50000)). lia.
Qed.

(** X10. An article without content whose address is missing or empty is
    dropped without any request; so is one whose page cannot be fetched,
    after one request. *)
Theorem extract_content_drops_unfetchable_article
  (article : Article) (w : World) :
  has_content article = false ->
  (Py.get (url article) "" = "" ->
   extract_content env [article] w = (inr [], w))
  /\ (Py.get (url article) "" <> "" ->
      page_text env (Py.get (url article) "") = None ->
      extract_content env [article] w
      = (inr [],
         {| ticks := ticks w;
            fetched := (fetched w ++ [Py.get (url article) ""])%list |})).
Proof.
  intros Hhas. unfold extract_content.
  split.
  - intros Hurl. rewrite extract_loop_spec. cbn [flat_map].
    unfold extracted, requested, fetched_text. rewrite Hhas, Hurl.
    cbn. rewrite app_nil_r. now destruct w.
  - intros Hurl Hpage. rewrite extract_loop_spec. cbn [flat_map].
    unfold extracted, requested, fetched_text. rewrite Hhas, Hpage.
    destruct (Py.get (url article) "") as [|c l]; [congruence |].
    cbn. reflexivity.
Qed.

End ExtractionInGeneral.

Lemma extract_content_drops_unfetchable_article_witness :
  extract_content offline_env [bulletin] world0
  = (inr [],
     {| ticks := 0;
        fetched := ["https://csrc.nist.gov/publications/bulletin"] |}).
Proof.
  apply (extract_content_drops_unfetchable_article offline_env bulletin
           world0).
  - reflexivity.
  - discriminate.
  - reflexivity.
Defined.

(** ** The scorer in general *)

Lemma lower_str_slice_to (s : string) (n : nat) :
  Py.lower (Py.str_slice_to s n) = Py.str_slice_to (Py.lower s) n.
Proof.
  unfold Py.str_slice_to. revert s.
  induction n as [|n IH]; intros [|c s]; simpl; trivial.
  now rewrite IH.
Qed.

(** The scanned text, with the lower case taken part by part. *)
Lemma scored_text_lower (article : Article) :
  scored_text article
  = Py.lower (Py.get (title article) "") ++ " "
    ++ Py.lower (Py.get (summary article) "") ++ " "
    ++ Py.str_slice_to (Py.lower (Py.get (content article) "")) 1000.
Proof.
  unfold scored_text. rewrite !lower_app, lower_str_slice_to. reflexivity.
Qed.

Lemma score_of_threshold (m : nat) (demo : bool) :
  m <= 30 ->
  PrimFloat.ltb relevance_threshold (score_of m demo) = demo || (8 <=? m)%nat.
Proof.
  intros Hm.
  apply (Bool.eqb_prop
           (PrimFloat.ltb relevance_threshold (score_of m demo))
           (demo || (8 <=? m)%nat)).
  revert m Hm.
  apply (below_31
           (fun m => Bool.eqb
                       (PrimFloat.ltb relevance_threshold (score_of m demo))
                       (demo || (8 <=? m)%nat))).
  destruct demo; vm_compute; reflexivity.
Qed.

Lemma score_of_saturated (m : nat) (demo : bool) :
  m <= 30 -> demo = true \/ 10 <= m -> score_of m demo = 1%float.
Proof.
  intros Hm Hsat.
  destruct demo.
  - do 31 (destruct m as [|m]; [vm_compute; reflexivity |]). lia.
  - destruct Hsat as [Hdemo | Hten]; [discriminate Hdemo |].
    do 10 (destruct m as [|m]; [lia |]).
    do 21 (destruct m as [|m]; [vm_compute; reflexivity |]). lia.
Qed.

Lemma score_unchanged_by_annotation (article : Article) (x : float) :
  _keyword_based_relevance (set_relevance_score article x)
  = _keyword_based_relevance article.
Proof.
  unfold _keyword_based_relevance, matches, is_demo, scored_text.
  cbn [set_relevance_score title summary content source]. reflexivity.
Qed.

(** X11. An article passes the threshold of the filter exactly when its
    source is marked as demo or its scanned text matches at least 8 of the
    30 keywords: with 7 matches the score is 0.7, which is not above the
    threshold. *)
Theorem article_is_relevant_iff_demo_or_eight_keywords (article : Article) :
  above_threshold _keyword_based_relevance article
  = is_demo article || (8 <=? matches article)%nat.
Proof.
  unfold above_threshold, _keyword_based_relevance.
  apply score_of_threshold, (matches_in_le (scored_text article)).
Qed.

(** X12. The score is capped: an article whose source is marked as demo
    scores exactly 1.0 whatever its text is, and so does an article that
    matches ten or more keywords. *)
Theorem score_is_one_for_demo_or_ten_keywords (article : Article) :
  is_demo article = true \/ 10 <= matches article ->
  _keyword_based_relevance article = 1%float.
Proof.
  intros Hsat. unfold _keyword_based_relevance.
  apply score_of_saturated; [apply (matches_in_le (scored_text article)) |].
  exact Hsat.
Qed.

(** X13. Content beyond the 1000th character has no effect: extending a
    content of 1000 characters or more leaves the score as it is. *)
Theorem score_ignores_content_beyond_window
  (article : Article) (c extra : string) :
  1000 <= String.length c ->
  _keyword_based_relevance (set_content article (c ++ extra))
  = _keyword_based_relevance (set_content article c).
Proof.
  intros Hlong.
  assert (Htext : scored_text (set_content article (c ++ extra))
                  = scored_text (set_content article c)).
  { unfold scored_text. cbn [set_content title summary content Py.get].
    rewrite str_slice_to_app.
    replace (1000 - String.length c) with 0 by lia.
    now rewrite str_slice_to_0, append_empty_r. }
  unfold _keyword_based_relevance, matches, is_demo.
  rewrite Htext. cbn [set_content source]. reflexivity.
Qed.

(** X14. On ASCII text the score does not depend on the case of the
    letters: two articles whose titles, summaries, contents and sources are
    ASCII and equal up to case get the same score. *)
Theorem score_is_case_insensitive (a b : Article) :
  ascii_article a ->
  ascii_article b ->
  Py.lower (Py.get (title a) "") = Py.lower (Py.get (title b) "") ->
  Py.lower (Py.get (summary a) "") = Py.lower (Py.get (summary b) "") ->
  Py.lower (Py.get (content a) "") = Py.lower (Py.get (content b) "") ->
  Py.lower (Py.get (source a) "") = Py.lower (Py.get (source b) "") ->
  _keyword_based_relevance a = _keyword_based_relevance b.
Proof.
  intros _ _ Ht Hs Hc Hsrc.
  unfold _keyword_based_relevance, matches, is_demo.
  rewrite !scored_text_lower, Ht, Hs, Hc, Hsrc. reflexivity.
Qed.

Lemma score_is_one_for_demo_or_ten_keywords_witness :
  _keyword_based_relevance
    (mkArticle (Some "SSDF") None None None (Some "demo") None None)
  = 1%float.
Proof.
  apply (score_is_one_for_demo_or_ten_keywords
           (mkArticle (Some "SSDF") None None None (Some "demo") None None)).
  left. reflexivity.
Defined.

Lemma score_ignores_content_beyond_window_witness :
  _keyword_based_relevance
    (set_content long_article ((filler 992 ++ "software") ++ " and security"))
  = _keyword_based_relevance
      (set_content long_article (filler 992 ++ "software")).
Proof.
  apply (score_ignores_content_beyond_window long_article
           (filler 992 ++ "software") " and security").
  vm_compute. lia.
Defined.

Lemma score_is_case_insensitive_witness :
  _keyword_based_relevance
    (mkArticle (Some "CLOUD SECURITY") None None (Some "Access Control")
       (Some "NIST") (Some "DevOps") None)
  = _keyword_based_relevance
      (mkArticle (Some "cloud security") None None (Some "access control")
         (Some "nist") (Some "devops") None).
Proof.
  apply (score_is_case_insensitive
           (mkArticle (Some "CLOUD SECURITY") None None (Some "Access Control")
              (Some "NIST") (Some "DevOps") None)
           (mkArticle (Some "cloud security") None None (Some "access control")
              (Some "nist") (Some "devops") None)).
  - repeat split; reflexivity.
  - repeat split; reflexivity.
  - reflexivity.
  - reflexivity.
  - reflexivity.
  - reflexivity.
Defined.

(** ** The filter in general *)

Lemma annotate_is_stable (article : Article) :
  annotate _keyword_based_relevance
    (annotate _keyword_based_relevance article)
  = annotate _keyword_based_relevance article
  /\ above_threshold _keyword_based_relevance
       (annotate _keyword_based_relevance article)
     = above_threshold _keyword_based_relevance article.
Proof.
  unfold annotate, above_threshold.
  rewrite !score_unchanged_by_annotation. split; reflexivity.
Qed.

Lemma filter_it_relevant_content_spec (articles : list Article) :
  filter_it_relevant_content articles
  = map (annotate _keyword_based_relevance)
      (filter (above_threshold _keyword_based_relevance) articles).
Proof. unfold filter_it_relevant_content. now rewrite filter_loop_spec. Qed.

(** X15. Filtering twice is filtering once: the filter keeps every article
    it has already kept and gives it the same score again. *)
Theorem filter_is_idempotent (articles : list Article) :
  filter_it_relevant_content (filter_it_relevant_content articles)
  = filter_it_relevant_content articles.
Proof.
  rewrite !filter_it_relevant_content_spec.
  induction articles as [|article rest IH]; [reflexivity |].
  cbn [filter].
  destruct (above_threshold _keyword_based_relevance article) eqn:Hkeep;
    [| exact IH].
  cbn [map filter].
  destruct (annotate_is_stable article) as [Hsame Hstill].
  rewrite Hstill, Hkeep. cbn [map]. rewrite Hsame, IH. reflexivity.
Qed.

(** X16. Every article the filter returns is an article of the input with
    its keyword score as its [relevance_score] and its other fields as they
    were, and that score is above 0.7 and at most 1.0; the filter returns
    no more articles than it was given. *)
Theorem filter_returns_scored_articles (articles : list Article) :
  (List.length (filter_it_relevant_content articles)
   <= List.length articles)%nat
  /\ Forall
       (fun article' =>
          exists article,
            In article articles
            /\ relevance_score article'
               = Some (_keyword_based_relevance article)
            /\ title article' = title article
            /\ url article' = url article
            /\ date article' = date article
            /\ summary article' = summary article
            /\ source article' = source article
            /\ content article' = content article
            /\ float_lt relevance_threshold
                 (_keyword_based_relevance article)
            /\ float_le (_keyword_based_relevance article) 1)
       (filter_it_relevant_content articles).
Proof.
  rewrite filter_it_relevant_content_spec. split.
  - rewrite length_map. apply filter_length_le.
  - apply Forall_forall. intros article' Hin.
    apply in_map_iff in Hin. destruct Hin as (article & <- & Hin).
    apply filter_In in Hin. destruct Hin as [Hin Hkeep].
    exists article.
    split; [exact Hin |].
    unfold annotate, set_relevance_score.
    cbn [relevance_score title url date summary source content].
    do 7 (split; [reflexivity |]).
    split; [exact Hkeep |].
    unfold _keyword_based_relevance.
    apply score_of_in_unit_interval, (matches_in_le (scored_text article)).
Qed.

Lemma filter_output_is_scored (articles : list Article) :
  Forall scored (filter_it_relevant_content articles).
Proof.
  rewrite filter_it_relevant_content_spec.
  apply Forall_forall. intros article' Hin.
  apply in_map_iff in Hin. destruct Hin as (article & <- & _).
  unfold scored, annotate. cbn. discriminate.
Qed.

(** X17. The report of what the filter returns is always written: the
    formatting error of the report cannot occur after the filter, whatever
    the articles and the clock are. *)
Theorem report_of_filtered_articles_is_returned
  (env : Env) (articles : list Article) (w : World) :
  exists text,
    fst (generate_summary env (filter_it_relevant_content articles) w)
    = inr text.
Proof.
  apply report_returned_on_scored_articles, filter_output_is_scored.
Qed.

(** ** The report in general *)

Lemma contains_app_r (k a b : string) :
  Py.contains k b = true -> Py.contains k (a ++ b) = true.
Proof.
  rewrite !contains_spec. intros (pre & post & ->).
  exists (a ++ pre), post. now rewrite append_assoc.
Qed.

Lemma contains_self (k : string) : Py.contains k k = true.
Proof. apply contains_spec. exists "", "". now rewrite append_empty_r. Qed.

Lemma lines_cons (s : string) (l : list string) :
  lines (s :: l) = s ++ nl ++ lines l.
Proof.
  unfold lines. destruct l as [|x l]; cbn [map String.concat].
  - now rewrite append_empty_r.
  - now rewrite append_assoc.
Qed.

Lemma contains_lines (k s : string) (l : list string) :
  In s l -> Py.contains k s = true -> Py.contains k (lines l) = true.
Proof.
  intros Hin Hk. induction l as [|x l IH]; [destruct Hin |].
  rewrite lines_cons. destruct Hin as [-> | Hin].
  - now apply contains_app.
  - apply contains_app_r, contains_app_r, IH, Hin.
Qed.

Lemma findings_contain_title (articles : list Article) (article : Article) :
  In article articles ->
  forall i,
    Py.contains (Py.get (title article) "Untitled") (findings articles i)
    = true
    /\ Py.contains (Py.get (url article) "N/A") (findings articles i) = true.
Proof.
  induction articles as [|a rest IH]; intros Hin i; [destruct Hin |].
  cbn [findings]. destruct Hin as [-> | Hin].
  - split; apply contains_app; unfold finding_text.
    + apply (contains_lines _
               ("### " ++ Py.str_of_nat i ++ ". "
                ++ Py.get (title article) "Untitled"));
        [cbn; tauto |].
      apply contains_app_r, contains_app_r, contains_app_r, contains_self.
    + apply (contains_lines _ ("- **URL:** " ++ Py.get (url article) "N/A"));
        [cbn; tauto |].
      apply contains_app_r, contains_self.
  - destruct (IH Hin (S i)) as [Ht Hu].
    split; now apply contains_app_r.
Qed.

Lemma citations_contain_link (articles : list Article) (article : Article) :
  In article articles ->
  forall i,
    Py.contains
      ("[" ++ Py.get (title article) "Untitled" ++ "]("
       ++ Py.get (url article) "#" ++ ")")
      (citations articles i) = true.
Proof.
  induction articles as [|a rest IH]; intros Hin i; [destruct Hin |].
  cbn [citations]. destruct Hin as [-> | Hin].
  - apply contains_app. unfold citation_line.
    apply contains_app_r, contains_spec.
    exists ". ", nl. rewrite !append_assoc. reflexivity.
  - now apply contains_app_r, IH.
Qed.

Section ReportInGeneral.

Variable env : Env.

(** X18. The report of scored articles names every one of them: the title
    and the address of each article occur in the report, and so does its
    citation, a Markdown link from the title to the address (with
    "Untitled", "N/A" and "#" for what is missing). *)
Theorem report_names_every_article
  (articles : list Article) (article : Article) (w : World) :
  Forall scored articles ->
  In article articles ->
  exists text,
    fst (generate_summary env articles w) = inr text
    /\ Py.contains (Py.get (title article) "Untitled") text = true
    /\ Py.contains (Py.get (url article) "N/A") text = true
    /\ Py.contains
         ("[" ++ Py.get (title article) "Untitled" ++ "]("
          ++ Py.get (url article) "#" ++ ")") text = true.
Proof.
  intros Hscored Hin. unfold generate_summary.
  rewrite (report_of_scored env articles w Hscored). cbn [fst].
  eexists. split; [reflexivity |].
  destruct (findings_contain_title articles article Hin 1) as [Ht Hu].
  pose proof (citations_contain_link articles article Hin 1) as Hc.
  repeat split.
  - now apply contains_app_r, contains_app.
  - now apply contains_app_r, contains_app.
  - now apply contains_app_r, contains_app_r, contains_app_r, contains_app.
Qed.

(** X19. The report of scored articles opens with a front matter: it
    starts with "---", has a title and a date entry, states the number of
    articles after "articles_processed: ", and carries the heading of the
    summary. *)
Theorem report_opens_with_front_matter
  (articles : list Article) (w : World) :
  Forall scored articles ->
  exists text,
    fst (generate_summary env articles w) = inr text
    /\ String.prefix "---" text = true
    /\ Py.contains "title:" text = true
    /\ Py.contains "date:" text = true
    /\ Py.contains
         ("articles_processed: " ++ Py.str_of_nat (List.length articles)
          ++ nl) text = true
    /\ Py.contains "# NIST" text = true.
Proof.
  intros Hscored. unfold generate_summary.
  rewrite (report_of_scored env articles w Hscored). cbn [fst].
  eexists. split; [reflexivity |].
  split; [reflexivity |].
  unfold report_header.
  split; [| split; [| split]]; apply contains_app.
  - apply (contains_lines _
             ("title: " ++ dq ++ "NIST SP 800 Compliance Update Summary" ++ dq));
      [cbn; tauto | reflexivity].
  - apply (contains_lines _
             ("date: " ++ dq ++ isoformat (clock env (ticks w)) ++ dq));
      [cbn; tauto | reflexivity].
  - rewrite !lines_cons.
    apply contains_app_r, contains_app_r, contains_app_r, contains_app_r,
      contains_app_r, contains_app_r.
    apply contains_spec. exists "". eexists.
    rewrite !append_assoc. reflexivity.
  - apply (contains_lines _ "# NIST SP 800 Compliance Update Summary");
      [cbn; tauto | reflexivity].
Qed.

End ReportInGeneral.

Lemma report_names_every_article_witness :
  exists text,
    fst (generate_summary offline_env [doc_090; doc_071] world0) = inr text
    /\ Py.contains "third" text = true
    /\ Py.contains "N/A" text = true
    /\ Py.contains "[third](#)" text = true.
Proof.
  apply (report_names_every_article offline_env [doc_090; doc_071] doc_071
           world0).
  - repeat constructor; discriminate.
  - right. left. reflexivity.
Defined.

Lemma report_opens_with_front_matter_witness :
  exists text,
    fst (generate_summary offline_env [doc_090; doc_071] world0) = inr text
    /\ String.prefix "---" text = true
    /\ Py.contains "title:" text = true
    /\ Py.contains "date:" text = true
    /\ Py.contains ("articles_processed: 2" ++ nl) text = true
    /\ Py.contains "# NIST" text = true.
Proof.
  apply (report_opens_with_front_matter offline_env [doc_090; doc_071]
           world0).
  repeat constructor; discriminate.
Defined.

(** ** Publishing and the request handler in general *)

Section HandlerInGeneral.

Variable env : Env.

(** X20. Publishing fails with status 500 only: without a client it fails
    at once, leaving the world as it is, and whatever the hosting service
    raises is turned into an [HTTPException] with status 500; a result of
    the service is passed on as it is. *)
Theorem publish_to_github_fails_with_status_500_only
  (text : string) (articles : list Article) (w : World) :
  (github_client env = false ->
   publish_to_github env text articles w
   = (inl (HTTPException 500 "GitHub client not configured"), w))
  /\ (forall e w',
        publish_to_github env text articles w = (inl e, w') ->
        exists detail, e = HTTPException 500 detail)
  /\ (forall result w',
        publish_to_github env text articles w = (inr result, w') ->
        github_api env text articles w = (inr result, w')).
Proof.
  unfold publish_to_github, try_except, raise.
  destruct (github_client env); cbn [negb].
  - split; [discriminate |].
    destruct (github_api env text articles w) as [[e0|result0] w0].
    + split; intros ? ? H; inversion H; eauto.
    + split; intros ? ? H; inversion H; eauto.
  - split; [reflexivity |].
    split; intros ? ? H; inversion H; eauto.
Qed.

Lemma search_positive_nonempty (requested_topic : option string)
  (max_results : Z) :
  (0 < max_results)%Z ->
  search_nist_updates env requested_topic max_results <> [].
Proof.
  intros Hpos Hempty.
  rewrite search_nist_updates_positive in Hempty by assumption.
  apply app_eq_nil in Hempty. destruct Hempty as [Hreal Hdemo].
  set (real := real_source_articles env requested_topic max_results) in *.
  destruct (Z.ltb_spec (Py.len real) max_results) as [Hlt | Hge].
  - destruct (Z.to_nat (max_results - Py.len real)) eqn:Ed;
      [lia | discriminate Hdemo].
  - destruct real as [|a real']; [unfold Py.len in Hge; simpl in Hge; lia |].
    destruct (Z.to_nat max_results) eqn:Em; [lia | discriminate Hreal].
Qed.

Lemma search_length_le (requested_topic : option string) (max_results : Z) :
  (0 <= max_results)%Z ->
  (List.length (search_nist_updates env requested_topic max_results)
   <= Z.to_nat max_results)%nat.
Proof.
  intros Hnonneg. rewrite search_nist_updates_steps. cbv zeta.
  rewrite slice_to_nonneg by assumption. apply firstn_le_length.
Qed.

Lemma extracted_length (articles : list Article) :
  (List.length (flat_map (extracted env) articles)
   <= List.length articles)%nat.
Proof.
  induction articles as [|article rest IH]; [simpl; lia |].
  cbn [flat_map]. rewrite length_app. unfold extracted at 1.
  destruct (has_content article);
    [| destruct (Py.nonempty (fetched_text env article))];
    simpl; lia.
Qed.

(** Once an article is relevant, the handler answers with success. *)
Lemma workflow_succeeds_when_relevant
  (request : WorkflowRequest) (w w1 : World) (extracted_articles : list Article) :
  extract_content env
    (search_nist_updates env (topic request) (max_articles request)) w
  = (inr extracted_articles, w1) ->
  filter_it_relevant_content extracted_articles <> [] ->
  exists response w',
    run_workflow env request w = (inr response, w')
    /\ status response = "success"
    /\ articles_processed response
       = List.length (filter_it_relevant_content extracted_articles)
    /\ (github_client env = false ->
        summary_url response
        = "GitHub not configured - summary generated successfully"
        /\ fetched w' = fetched w1)
    /\ ((forall text articles w2,
            exists e w3, github_api env text articles w2 = (inl e, w3)) ->
        github_client env = true ->
        summary_url response
        = "GitHub publishing failed - summary generated successfully"
        /\ pr_url response
           = "GitHub publishing failed - summary generated successfully").
Proof.
  intros Hextract Hrelevant.
  unfold run_workflow, try_except, workflow_steps.
  destruct (search_nist_updates env (topic request) (max_articles request))
    as [|a l] eqn:Hsearch.
  { unfold extract_content in Hextract. cbn in Hextract.
    unfold ret in Hextract. inversion Hextract; subst.
    exfalso. apply Hrelevant. reflexivity. }
  unfold bind at 1. rewrite Hextract.
  pose proof (filter_output_is_scored extracted_articles) as Hscored.
  destruct (filter_it_relevant_content extracted_articles) as [|r rel] eqn:Hrel;
    [congruence |].
  unfold bind at 1. unfold generate_summary.
  rewrite (report_of_scored env (r :: rel) w1 Hscored).
  destruct (github_client env) eqn:Hclient.
  - unfold try_except, bind, publish_to_github. rewrite Hclient.
    cbn [negb]. unfold try_except, raise, ret.
    match goal with
    | |- context [github_api env ?t ?a ?w2] =>
        destruct (github_api env t a w2) as [[e|result] w3] eqn:Hapi
    end.
    + eexists. eexists. split; [reflexivity |].
      cbn [status articles_processed summary_url pr_url fetched].
      split; [reflexivity | split; [reflexivity | split]].
      * discriminate.
      * intros _ _. split; reflexivity.
    + eexists. eexists. split; [reflexivity |].
      cbn [status articles_processed summary_url pr_url fetched].
      split; [reflexivity | split; [reflexivity | split]].
      * discriminate.
      * intros Hdown _.
        match type of Hapi with
        | github_api env ?t ?a ?w2 = _ =>
            destruct (Hdown t a w2) as (e & w4 & Hfail)
        end.
        congruence.
  - unfold ret. eexists. eexists. split; [reflexivity |].
    cbn [status articles_processed summary_url pr_url fetched].
    split; [reflexivity | split; [reflexivity | split]].
    + intros _. split; reflexivity.
    + discriminate.
Qed.

(** X21. A failure of the hosting service does not fail the request: when
    the client is configured and the service raises, whatever it raises,
    a request with relevant articles is answered with success, with the
    number of relevant articles and a note that publishing failed in place
    of the two addresses. *)
Theorem run_workflow_survives_publishing_failure
  (request : WorkflowRequest) (w w1 : World) (extracted_articles : list Article) :
  github_client env = true ->
  (forall text articles w2,
      exists e w3, github_api env text articles w2 = (inl e, w3)) ->
  extract_content env
    (search_nist_updates env (topic request) (max_articles request)) w
  = (inr extracted_articles, w1) ->
  filter_it_relevant_content extracted_articles <> [] ->
  exists w',
    run_workflow env request w
    = (inr {| status := "success";
              summary_url :=
                "GitHub publishing failed - summary generated successfully";
              pr_url :=
                "GitHub publishing failed - summary generated successfully";
              articles_processed :=
                List.length (filter_it_relevant_content extracted_articles) |},
       w').
Proof.
  intros Hclient Hdown Hextract Hrelevant.
  destruct (workflow_succeeds_when_relevant request w w1 extracted_articles
              Hextract Hrelevant)
    as (response & w' & Hrun & Hstatus & Hcount & _ & Hfailed).
  destruct (Hfailed Hdown Hclient) as [Hsummary Hpr].
  exists w'. rewrite Hrun. destruct response. cbn in *. now subst.
Qed.

Lemma workflow_fails_when_nothing_is_relevant
  (request : WorkflowRequest) (w w1 : World) (extracted_articles : list Article) :
  extract_content env
    (search_nist_updates env (topic request) (max_articles request)) w
  = (inr extracted_articles, w1) ->
  filter_it_relevant_content extracted_articles = [] ->
  exists detail w',
    run_workflow env request w = (inl (HTTPException 500 detail), w').
Proof.
  intros Hextract Hnone.
  unfold run_workflow, try_except, workflow_steps.
  destruct (search_nist_updates env (topic request) (max_articles request))
    as [|a l].
  - unfold raise. eauto.
  - unfold bind. rewrite Hextract, Hnone. unfold raise. eauto.
Qed.

Lemma extract_content_run (articles : list Article) (w : World) :
  extract_content env articles w
  = (inr (flat_map (extracted env) articles),
     {| ticks := ticks w;
        fetched := (fetched w ++ flat_map requested articles)%list |}).
Proof. unfold extract_content. apply extract_loop_spec. Qed.

(** X22. An answer of the handler is a success that counts the relevant
    articles: their number is at least 1 and, for a non-negative
    [max_articles], at most [max_articles]. *)
Theorem run_workflow_counts_relevant_articles
  (request : WorkflowRequest) (w w' : World) (response : WorkflowResponse) :
  run_workflow env request w = (inr response, w') ->
  status response = "success"
  /\ (1 <= articles_processed response)%nat
  /\ ((0 <= max_articles request)%Z ->
      (Z.of_nat (articles_processed response) <= max_articles request)%Z).
Proof.
  intros Hrun.
  pose proof (extract_content_run
                (search_nist_updates env (topic request)
                   (max_articles request)) w) as Hextract.
  remember (flat_map (extracted env)
              (search_nist_updates env (topic request)
                 (max_articles request))) as ex eqn:Hex.
  destruct (filter_it_relevant_content ex) as [|r rel] eqn:Hrel.
  - destruct (workflow_fails_when_nothing_is_relevant request w _ ex
                Hextract Hrel) as (detail & w0 & Hfail).
    rewrite Hfail in Hrun. discriminate Hrun.
  - destruct (workflow_succeeds_when_relevant request w _ ex Hextract)
      as (response0 & w0 & Hrun0 & Hstatus & Hcount & _);
      [rewrite Hrel; discriminate |].
    rewrite Hrun0 in Hrun. inversion Hrun; subst response0 w0.
    split; [exact Hstatus |]. rewrite Hcount, Hrel.
    split; [simpl; lia |].
    intros Hnonneg.
    pose proof (filter_length_le (above_threshold _keyword_based_relevance) ex)
      as Hfilter.
    pose proof (extracted_length
                  (search_nist_updates env (topic request)
                     (max_articles request))) as Hlen.
    rewrite <- Hex in Hlen.
    pose proof (search_length_le (topic request) (max_articles request)
                  Hnonneg) as Hfound.
    rewrite <- Hrel, filter_it_relevant_content_spec, length_map. lia.
Qed.

(** X23. For a positive [max_articles] the handler has two outcomes only:
    success, or status 500 for the lack of relevant articles.  Articles are
    always retrieved, the report is always written, and a failure to
    publish is not a failure of the request. *)
Theorem run_workflow_outcomes_for_positive_bound
  (request : WorkflowRequest) (w : World) :
  (0 < max_articles request)%Z ->
  (exists response w',
      run_workflow env request w = (inr response, w')
      /\ status response = "success")
  \/ (exists w',
        run_workflow env request w
        = (inl (HTTPException 500
                  (HTTPException_str env 404
                     "No relevant articles found for IT organizations")),
           w')).
Proof.
  intros Hpos.
  pose proof (extract_content_run
                (search_nist_updates env (topic request)
                   (max_articles request)) w) as Hextract.
  remember (flat_map (extracted env)
              (search_nist_updates env (topic request)
                 (max_articles request))) as ex eqn:Hex.
  destruct (filter_it_relevant_content ex) as [|r rel] eqn:Hrel.
  - right. eexists.
    eapply run_workflow_answers_500_when_nothing_is_relevant;
      [apply search_positive_nonempty; assumption
      | exact Hextract
      | exact Hrel].
  - left.
    destruct (workflow_succeeds_when_relevant request w _ ex Hextract)
      as (response & w' & Hrun & Hstatus & _);
      [rewrite Hrel; discriminate |].
    eauto.
Qed.

End HandlerInGeneral.

(** ** The workflow on the demo corpus *)

Section DemoWorkflow.

Variable env : Env.

Lemma real_sources_empty (requested_topic : option string) (max_results : Z) :
  (0 < max_results)%Z ->
  (forall term limit, _search_nist_csrc env term limit = []) ->
  (forall query limit, _google_search_nist env query limit = []) ->
  real_source_articles env requested_topic max_results = [].
Proof.
  intros Hpos Hprimary Hsecondary. unfold real_source_articles. cbv zeta.
  rewrite (csrc_loop_nothing env _ _ Hpos Hprimary), Hsecondary.
  now destruct (_ && _).
Qed.

(** The first [n] demo articles go through extraction untouched and through
    the filter complete. *)
Lemma demo_articles_pass (n : nat) (w : World) :
  1 <= n <= 3 ->
  extract_content env (firstn n demo_articles) w
  = (inr (firstn n demo_articles), w)
  /\ List.length (filter_it_relevant_content (firstn n demo_articles)) = n.
Proof.
  intros Hn.
  destruct n as [|[|[|[|n]]]]; try lia;
    (split; [reflexivity | vm_compute; reflexivity]).
Qed.

(** X24. When the scraper and the search yield nothing, a request for a
    positive number of articles succeeds on the demo corpus alone: the
    answer is a success that counts [min(max_articles, 3)] articles, and,
    when no client is configured, the content extractor has requested no
    page for it (the requests of the scraper are not counted here). *)
Theorem run_workflow_serves_demo_corpus
  (requested_topic : option string) (max_results : Z) (w : World) :
  (0 < max_results)%Z ->
  (forall term limit, _search_nist_csrc env term limit = []) ->
  (forall query limit, _google_search_nist env query limit = []) ->
  exists response w',
    run_workflow env
      {| topic := requested_topic; max_articles := max_results |} w
    = (inr response, w')
    /\ status response = "success"
    /\ articles_processed response = Z.to_nat (Z.min max_results 3)
    /\ (github_client env = false -> fetched w' = fetched w).
Proof.
  intros Hpos Hprimary Hsecondary.
  set (n := Z.to_nat (Z.min max_results 3)).
  assert (Hn : 1 <= n <= 3) by (unfold n; lia).
  assert (Hsearch : search_nist_updates env requested_topic max_results
                    = firstn n demo_articles).
  { rewrite search_nist_updates_positive by assumption.
    rewrite (real_sources_empty _ _ Hpos Hprimary Hsecondary).
    rewrite firstn_nil. cbn [app]. change (Py.len (@nil Article)) with 0%Z.
    rewrite Z.sub_0_r. unfold n.
    destruct (Z.le_ge_cases max_results 3) as [Hle | Hge].
    - now rewrite Z.min_l.
    - rewrite Z.min_r by assumption.
      rewrite !firstn_all2; trivial;
        change (List.length demo_articles) with 3%nat; lia. }
  destruct (demo_articles_pass n w Hn) as [Hextract Hcount].
  destruct (workflow_succeeds_when_relevant env
              {| topic := requested_topic; max_articles := max_results |}
              w w (firstn n demo_articles))
    as (response & w' & Hrun & Hstatus & Hprocessed & Hquiet & _).
  - cbn [topic max_articles]. rewrite Hsearch. exact Hextract.
  - intros Hnone. rewrite Hnone in Hcount. simpl in Hcount. lia.
  - exists response, w'. rewrite Hprocessed, Hcount.
    repeat split; trivial.
    intros Hclient. now apply Hquiet.
Qed.

End DemoWorkflow.

Lemma run_workflow_serves_demo_corpus_witness :
  exists response w',
    run_workflow offline_env {| topic := None; max_articles := 2 |} world0
    = (inr response, w')
    /\ status response = "success"
    /\ articles_processed response = 2%nat
    /\ (github_client offline_env = false -> fetched w' = fetched world0).
Proof.
  apply (run_workflow_serves_demo_corpus offline_env None 2 world0).
  - lia.
  - reflexivity.
  - reflexivity.
Defined.

Lemma run_workflow_survives_publishing_failure_witness :
  exists w',
    run_workflow failing_github_env {| topic := None; max_articles := 5 |}
      world0
    = (inr {| status := "success";
              summary_url :=
                "GitHub publishing failed - summary generated successfully";
              pr_url :=
                "GitHub publishing failed - summary generated successfully";
              articles_processed :=
                List.length (filter_it_relevant_content demo_articles) |},
       w').
Proof.
  apply (run_workflow_survives_publishing_failure failing_github_env
           {| topic := None; max_articles := 5 |} world0 world0
           demo_articles).
  - reflexivity.
  - intros text articles w2. eexists. eexists. reflexivity.
  - reflexivity.
  - vm_compute. discriminate.
Defined.

Lemma run_workflow_counts_relevant_articles_witness :
  (1 <= articles_processed
          {| status := "success";
             summary_url :=
               "GitHub not configured - summary generated successfully";
             pr_url := "GitHub not configured - no PR created";
             articles_processed := 2 |})%nat.
Proof.
  eapply (run_workflow_counts_relevant_articles offline_env
            {| topic := None; max_articles := 2 |} world0).
  vm_compute. reflexivity.
Defined.

Lemma run_workflow_outcomes_for_positive_bound_witness :
  (exists response w',
      run_workflow scraping_env {| topic := None; max_articles := 3 |} world0
      = (inr response, w')
      /\ status response = "success")
  \/ (exists w',
        run_workflow scraping_env {| topic := None; max_articles := 3 |}
          world0
        = (inl (HTTPException 500
                  (HTTPException_str scraping_env 404
                     "No relevant articles found for IT organizations")),
           w')).
Proof.
  apply (run_workflow_outcomes_for_positive_bound scraping_env
           {| topic := None; max_articles := 3 |} world0).
  simpl. lia.
Defined.

(** The sample page gives two articles: the short title, the element
    without heading and the title off the subject are left out, and the
    relative address is put under the base address. *)
Example scrape_sample_page :
  scrape offline_env "NIST SP 800-53" 3 sample_page world0
  = (inr [ scraped_article "NIST SP 800-53 Rev. 5"
             "https://csrc.nist.gov/publications/detail/sp/800-53/rev-5/final"
             "NIST SP 800-53" (sample_clock 0);
           scraped_article "Cybersecurity Framework 2.0"
             "https://www.nist.gov/cyberframework"
             "NIST SP 800-53" (sample_clock 1) ],
     {| ticks := 2; fetched := [] |}).
Proof. vm_compute. reflexivity. Qed.

(** The same dictionary twice in a list is fetched once: the text written
    at its first occurrence is found at the second. *)
Example extract_content_fetches_shared_dictionary_once :
  extract_content_refs searching_env [0; 0] [bulletin] world0
  = (inr ([0; 0],
          [set_content bulletin
             "Protecting controlled unclassified information"]),
     {| ticks := 0;
        fetched := ["https://csrc.nist.gov/publications/bulletin"] |}).
Proof. vm_compute. reflexivity. Qed.

